(** * Host package-manifest generation (package [cmd])

    A shallow embedding of the package-manifest pipeline of the command
    line client: OS release parsing, package-manager detection, parsing of
    the package-manager output, the apk reconstruction and the removal of
    inactive kernel packages.

    Go strings are byte sequences: they are modelled by [string], a
    sequence of 8-bit [ascii] values.  The receiver [c *cliState] is
    threaded explicitly; the commands the program spawns and the file it
    reads are the fields of a [World]. *)

From Stdlib Require Import Bool Arith ZArith Lia List Ascii String DecimalString.
Import ListNotations.

Local Open Scope list_scope.
Local Open Scope string_scope.

(** The line terminator, Go's ["\n"]. *)
Definition LF : string := String "010"%char "".

(** ** The part of Go's [strings] package the program calls *)
Module strings.

(** [strings.HasPrefix(s, prefix)]. *)
Fixpoint HasPrefix (s prefix : string) : bool :=
  match prefix, s with
  | EmptyString, _ => true
  | String _ _, EmptyString => false
  | String a prefix', String b s' => Ascii.eqb a b && HasPrefix s' prefix'
  end.

(** The slice [s[n:]] for [n <= len(s)]. *)
Fixpoint drop (n : nat) (s : string) : string :=
  match n, s with
  | O, _ => s
  | S _, EmptyString => EmptyString
  | S n', String _ s' => drop n' s'
  end.

(** The slice [s[:n]] for [n <= len(s)]. *)
Fixpoint take (n : nat) (s : string) : string :=
  match n, s with
  | O, _ => EmptyString
  | S _, EmptyString => EmptyString
  | S n', String a s' => String a (take n' s')
  end.

(** [strings.HasSuffix(s, suffix)]:
    [len(s) >= len(suffix) && s[len(s)-len(suffix):] == suffix]. *)
Definition HasSuffix (s suffix : string) : bool :=
  (length suffix <=? length s)%nat
  && (drop (length s - length suffix) s =? suffix).

(** [strings.TrimPrefix(s, prefix)]. *)
Definition TrimPrefix (s prefix : string) : string :=
  if HasPrefix s prefix then drop (length prefix) s else s.

(** [strings.TrimSuffix(s, suffix)]. *)
Definition TrimSuffix (s suffix : string) : string :=
  if HasSuffix s suffix then take (length s - length suffix) s else s.

(** [strings.Index(s, substr)]: the position of the first occurrence of
    [substr] in [s], [-1] when there is none. *)
Fixpoint Index (s substr : string) : Z :=
  if HasPrefix s substr then 0%Z
  else match s with
       | EmptyString => (-1)%Z
       | String _ s' =>
           let r := Index s' substr in
           if (r <? 0)%Z then (-1)%Z else (1 + r)%Z
       end.

(** [strings.Contains(s, substr)] is [Index(s, substr) >= 0]. *)
Definition Contains (s substr : string) : bool :=
  (0 <=? Index s substr)%Z.

(** [strings.Split(s, sep)] for a non-empty [sep]: the pieces of [s]
    between the successive, non-overlapping occurrences of [sep], found
    from the left.  [skip] counts the bytes of an occurrence of [sep]
    that are still to be passed over.  The result is never empty. *)
Fixpoint splitFrom (sep : string) (skip : nat) (s : string) : list string :=
  match s with
  | EmptyString => [EmptyString]
  | String a s' =>
      match skip with
      | S k => splitFrom sep k s'
      | O =>
          if HasPrefix s sep
          then EmptyString :: splitFrom sep (length sep - 1) s'
          else match splitFrom sep 0 s' with
               | piece :: pieces => String a piece :: pieces
               | [] => [String a EmptyString]
               end
      end
  end.

(** With an empty separator Go splits after each UTF-8 sequence; the
    program only ever passes the literals [","], [":"] and the line
    terminator, so that case is rendered byte-wise. *)
Fixpoint explode (s : string) : list string :=
  match s with
  | EmptyString => []
  | String a s' => String a EmptyString :: explode s'
  end.

Definition Split (s sep : string) : list string :=
  match sep with
  | EmptyString => explode s
  | String _ _ => splitFrom sep 0 s
  end.

(** [strings.Join(elems, sep)]. *)
Fixpoint Join (elems : list string) (sep : string) : string :=
  match elems with
  | [] => EmptyString
  | [e] => e
  | e :: rest => e ++ sep ++ Join rest sep
  end.

(** Membership of a byte in a cutset. *)
Fixpoint inCutset (a : ascii) (cutset : string) : bool :=
  match cutset with
  | EmptyString => false
  | String b cutset' => Ascii.eqb a b || inCutset a cutset'
  end.

(** [strings.TrimLeft], [strings.TrimRight] and [strings.Trim] for a
    cutset of ASCII characters, for which Go trims byte by byte (the
    program's cutsets are the hyphen and the double quote). *)
Fixpoint TrimLeft (s cutset : string) : string :=
  match s with
  | EmptyString => EmptyString
  | String a s' => if inCutset a cutset then TrimLeft s' cutset else s
  end.

Fixpoint TrimRight (s cutset : string) : string :=
  match s with
  | EmptyString => EmptyString
  | String a s' =>
      match TrimRight s' cutset with
      | EmptyString => if inCutset a cutset then EmptyString
                       else String a EmptyString
      | r => String a r
      end
  end.

Definition Trim (s cutset : string) : string :=
  TrimLeft (TrimRight s cutset) cutset.

(** [strings.Replace(s, old, new, 1)]: the first occurrence of [old] in
    [s] replaced by [new]; an empty [old] matches at the start of [s]. *)
Fixpoint Replace1 (s old new : string) : string :=
  if HasPrefix s old then new ++ drop (length old) s
  else match s with
       | EmptyString => EmptyString
       | String a s' => String a (Replace1 s' old new)
       end.

End strings.

(** [%d] of a non-negative index. *)
Definition decimal (n : nat) : string :=
  NilEmpty.string_of_uint (Nat.to_uint n).

(** ** Data model *)

(** A Go [error]: [None] is [nil], an error is identified with its
    message. *)
Definition error := option string.

(** [errors.Wrap(err, message)]. *)
Definition Wrap (e : string) (message : string) : error :=
  Some (message ++ ": " ++ e).

Record OS := { Name : string; Version : string }.

(** Modelled from the spec: the declarations of [api.OsPkgInfo] and
    [api.PackageManifest] are outside these sources; the records hold the
    fields the program writes and reads.  A manifest is the ordered
    sequence of its records. *)
Record OsPkgInfo :=
  { Os : string; OsVer : string; Pkg : string; PkgVer : string }.

Record PackageManifest := { OsPkgInfoList : list OsPkgInfo }.

(** [new(api.PackageManifest)]. *)
Definition newPackageManifest : PackageManifest := {| OsPkgInfoList := [] |}.

(** [m.OsPkgInfoList = append(m.OsPkgInfoList, pkg)]. *)
Definition appendPkg (m : PackageManifest) (pkg : OsPkgInfo) : PackageManifest :=
  {| OsPkgInfoList := (OsPkgInfoList m ++ [pkg])%list |}.

(** ** The client state: telemetry event and log *)

Inductive level := DebugLevel | WarnLevel.

Inductive fieldValue := FStr (s : string) | FInt (n : Z).

(** Modelled from the spec: the telemetry event is a sink of named scalar
    fields, kept in the order they were added; [Sent] counts the events
    handed to the sink.  The duration field is wall-clock time and is left
    out. *)
Record Honeyvent :=
  { Feature : string; FeatureData : list (string * fieldValue) }.

(** The log keeps level and message of each entry; the structured
    key/value payload is left out. *)
Record cliState :=
  { Event : Honeyvent; Log : list (level * string); Sent : nat }.

(** State passing for the methods of [*cliState]. *)
Definition M (A : Type) : Type := cliState -> A * cliState.

Definition ret {A} (a : A) : M A := fun c => (a, c).

Definition bind {A B} (m : M A) (k : A -> M B) : M B :=
  fun c => let (a, c') := m c in k a c'.

Notation "x <- m ;; k" := (bind m (fun x => k))
  (at level 61, m at next level, right associativity).
Notation "' pat <- m ;; k" := (bind m (fun x => match x with pat => k end))
  (at level 61, pat pattern, m at next level, right associativity).
Notation "m ;; k" := (bind m (fun _ => k))
  (at level 61, right associativity).

Definition logw (l : level) (msg : string) : M unit :=
  fun c => (tt, {| Event := Event c; Log := (Log c ++ [(l, msg)])%list;
                   Sent := Sent c |}).

Definition Debugw := logw DebugLevel.
Definition Warnw := logw WarnLevel.

Definition setFeature (feature : string) : M unit :=
  fun c => (tt, {| Event := {| Feature := feature;
                               FeatureData := FeatureData (Event c) |};
                   Log := Log c; Sent := Sent c |}).

Definition AddFeatureField (key : string) (value : fieldValue) : M unit :=
  fun c => (tt, {| Event := {| Feature := Feature (Event c);
                               FeatureData :=
                                 (FeatureData (Event c) ++ [(key, value)])%list |};
                   Log := Log c; Sent := Sent c |}).

Definition SendHoneyvent : M unit :=
  fun c => (tt, {| Event := Event c; Log := Log c; Sent := S (Sent c) |}).

(** ** The host: the release file and the spawned commands *)

Inductive result (A : Type) := Ok (a : A) | Failed (e : string).
Arguments Ok {A} a.
Arguments Failed {A} e.

(** What [cmd.CombinedOutput()] leaves behind, as far as the presence
    check looks at it: the kind of [err] and the exit status of the wait
    status. *)
Inductive runError := NoError | ExitError | OtherError.

Record Run := { runErr : runError; ExitStatus : Z }.

Record World :=
  { os_release : result string;      (* os.Open and the bytes of /etc/os-release *)
    which : string -> Run;           (* which <manager> *)
    command_v : string -> Run;       (* command -v <manager> *)
    rpm_qa : result string;          (* rpm -qa --queryformat ... *)
    dpkg_query_show : result string; (* dpkg-query --show --showformat ... *)
    apk_info : result string;        (* apk info *)
    apk_info_v : result string;      (* apk info -v *)
    uname_r : result string }.       (* uname -r *)

Definition SupportedPackageManagers : list string := ["dpkg-query"; "rpm"].

(** ** Epoch removal *)

Definition removeEpochFromPkgVersion (pkgVer : string) : string :=
  if strings.Contains pkgVer ":" then
    match strings.Split pkgVer ":" with
    | [_; version] => version       (* len(pkgVerSplit) == 2: pkgVerSplit[1] *)
    | _ => pkgVer
    end
  else pkgVer.

(** ** Active kernel filter *)

Definition detectActiveKernel (w : World) : M (string * bool) :=
  match uname_r w with
  | Failed _ => Warnw "unable to detect active kernel" ;; ret ("", false)
  | Ok kernel => ret (strings.TrimSuffix kernel LF, true)
  end.

(** What both branches do with an inactive kernel package before they
    [continue]: warn, and record the package in the event. *)
Definition suppressKernel (activeKernel : string) (i : nat) (pkg : OsPkgInfo)
  : M bool :=
  Warnw "inactive kernel package detected, removing from generated pkg manifest" ;;
  AddFeatureField ("kernel_suppressed_" ++ decimal i)
                  (FStr (Pkg pkg ++ "-" ++ PkgVer pkg)) ;;
  ret true.

(** The [switch manager] of the loop body; the result tells whether the
    body left through [continue]. *)
Definition inactiveKernelPkg (manager activeKernel : string) (i : nat)
    (pkg : OsPkgInfo) : M bool :=
  if manager =? "rpm" then
    let kernelPkgName := "kernel" in
    let pkgVer := removeEpochFromPkgVersion (PkgVer pkg) in
    if (Pkg pkg =? kernelPkgName)
       && negb (strings.Contains activeKernel pkgVer)
    then suppressKernel activeKernel i pkg
    else ret false
  else if manager =? "dpkg-query" then
    let kernelPkgName := "linux-image-" in
    if strings.Contains (Pkg pkg) kernelPkgName then
      let kernelVer := strings.TrimPrefix (Pkg pkg) kernelPkgName in
      if negb (strings.Contains activeKernel kernelVer)
      then suppressKernel activeKernel i pkg
      else ret false
    else ret false
  else ret false.

(** [for i, pkg := range manifest.OsPkgInfoList]. *)
Fixpoint filterLoop (manager activeKernel : string) (i : nat)
    (pkgs : list OsPkgInfo) (newManifest : PackageManifest)
  : M PackageManifest :=
  match pkgs with
  | [] => ret newManifest
  | pkg :: rest =>
      skipped <- inactiveKernelPkg manager activeKernel i pkg ;;
      if skipped
      then filterLoop manager activeKernel (S i) rest newManifest
      else filterLoop manager activeKernel (S i) rest (appendPkg newManifest pkg)
  end.

Definition removeInactivePackagesFromManifest (w : World)
    (manifest : PackageManifest) (manager : string) : M PackageManifest :=
  '(activeKernel, detected) <- detectActiveKernel w ;;
  AddFeatureField "active_kernel" (FStr activeKernel) ;;
  if negb detected then ret manifest
  else
    newManifest <- filterLoop manager activeKernel 0 (OsPkgInfoList manifest)
                              newPackageManifest ;;
    (if negb (List.length (OsPkgInfoList manifest)
              =? List.length (OsPkgInfoList newManifest))%nat
     then Debugw "package-manifest modified" else ret tt) ;;
    ret newManifest.

(** ** OS release reader *)

(** [bufio.Scanner] with its default split function [ScanLines] and its
    default buffer limit: the input is cut at each line terminator, a
    final unterminated line is a token when it is not empty, one trailing
    carriage return is dropped from each token, and a line that does not
    fit the buffer ([MaxScanTokenSize] bytes, terminator included) ends
    the scan with [ErrTooLong], which [Scan] reports as [false]. *)
Definition MaxScanTokenSize : Z := 65536.

Definition CR : string := String "013"%char "".

Definition dropCR (data : string) : string :=
  if strings.HasSuffix data CR then strings.take (length data - 1) data
  else data.

Definition tooLong (line : string) : bool :=
  (MaxScanTokenSize <=? Z.of_nat (length line))%Z.

Fixpoint scanTokens (pieces : list string) : list string :=
  match pieces with
  | [] => []
  | [final] =>
      if final =? "" then []
      else if tooLong final then [] else [dropCR final]
  | line :: rest =>
      if tooLong line then [] else dropCR line :: scanTokens rest
  end.

(** The successive values of [s.Text()] over the calls of [s.Scan()]
    that return [true]. *)
Definition Scanner (content : string) : list string :=
  scanTokens (strings.Split content LF).

(** The two patterns anchor a literal, [ID=] or [VERSION_ID=], at the
    start of the text and follow it by one group, any characters up to
    the anchored end: the group takes the rest of the text, which must hold no line terminator since [.] does not match one
    and [$] only matches at the end of the text.  A pattern of that shape
    is represented by its literal. *)
Record Regexp := { literal : string }.

Definition rexNameFromID : Regexp := {| literal := "ID=" |}.
Definition rexVersionID : Regexp := {| literal := "VERSION_ID=" |}.

(** [re.FindStringSubmatch(s)]: the whole match and the group, or [nil]. *)
Definition FindStringSubmatch (re : Regexp) (s : string) : option (list string) :=
  let rest := strings.drop (length (literal re)) s in
  if strings.HasPrefix s (literal re) && negb (strings.Contains rest LF)
  then Some [s; rest] else None.

Definition quote : string := String "034"%char "".

(** [for s.Scan() { ... }]. *)
Fixpoint scanLoop (texts : list string) (osInfo : OS) : OS :=
  match texts with
  | [] => osInfo
  | text :: rest =>
      match FindStringSubmatch rexNameFromID text with
      | Some m =>
          scanLoop rest {| Name := strings.Trim (nth 1 m "") quote;
                           Version := Version osInfo |}
      | None =>
          match FindStringSubmatch rexVersionID text with
          | Some m =>
              scanLoop rest {| Name := Name osInfo;
                               Version := strings.Trim (nth 1 m "") quote |}
          | None => scanLoop rest osInfo
          end
      end
  end.

Definition unsupportedPlatform : string :=
  "unsupported platform" ++ LF ++ LF
  ++ "For more information about supported platforms, visit:" ++ LF
  ++ "    https://support.lacework.com/hc/en-us/articles/360049666194-Host-Vulnerability-Assessment-Overview".

Definition GetOSInfo (w : World) : M (OS * error) :=
  let osInfo := {| Name := ""; Version := "" |} in
  Debugw "detecting operating system information" ;;
  match os_release w with
  | Failed _ => ret (osInfo, Some unsupportedPlatform)
  | Ok content =>
      Debugw "parsing os release file" ;;
      ret (scanLoop (Scanner content) osInfo, None)
  end.

(** ** Package manager detector *)

Definition checkPackageManagerWithNativeCommand (w : World) (manager : string)
  : M bool :=
  let cmd := command_v w manager in
  match runErr cmd with
  | NoError => ret (ExitStatus cmd =? 0)%Z
  | ExitError =>
      Debugw "error trying to check package-manager" ;;
      ret (ExitStatus cmd =? 0)%Z
  | OtherError =>
      Debugw "error trying to check package-manager" ;;
      ret false
  end.

Definition checkPackageManager (w : World) (manager : string) : M bool :=
  let cmd := which w manager in
  match runErr cmd with
  | NoError => ret (ExitStatus cmd =? 0)%Z
  | ExitError =>
      Debugw "error trying to check package-manager" ;;
      ret (ExitStatus cmd =? 0)%Z
  | OtherError =>
      Debugw "error trying to check package-manager" ;;
      Warnw "something went wrong with 'which', trying native command" ;;
      checkPackageManagerWithNativeCommand w manager
  end.

(** [for _, manager := range SupportedPackageManagers], leaving through
    [return manager, nil] at the first hit. *)
Fixpoint detectLoop (w : World) (managers : list string) : M (option string) :=
  match managers with
  | [] => ret None
  | manager :: rest =>
      found <- checkPackageManager w manager ;;
      if found then Debugw "detected" ;; ret (Some manager)
      else detectLoop w rest
  end.

Definition DetectPackageManager (w : World) : M (string * error) :=
  Debugw "detecting package-manager" ;;
  found <- detectLoop w SupportedPackageManagers ;;
  match found with
  | Some manager => ret (manager, None)
  | None =>
      let msg := "unable to find supported package managers." in
      let msg := msg ++ " Supported package managers are "
                 ++ strings.Join SupportedPackageManagers ", " ++ "." in
      ret ("", Some msg)
  end.

(** ** Package enumerator *)

(** A Go call either returns or panics. *)
Inductive outcome (A : Type) := Returns (a : A) | Panics (msg : string).
Arguments Returns {A} a.
Arguments Panics {A} msg.

Definition indexOutOfRange (i len : nat) : string :=
  "runtime error: index out of range [" ++ decimal i ++ "] with length "
  ++ decimal len.

(** [for i, pkg := range apkInfoWithVersionArray], with the unchecked
    [apkInfoArray[i]]. *)
Fixpoint apkLoop (apkInfoArray : list string) (i : nat)
    (apkInfoWithVersionArray : list string) (mq : list string)
  : outcome (list string) :=
  match apkInfoWithVersionArray with
  | [] => Returns mq
  | pkg :: rest =>
      match nth_error apkInfoArray i with
      | None => Panics (indexOutOfRange i (List.length apkInfoArray))
      | Some name =>
          apkLoop apkInfoArray (S i) rest
            (mq ++ [(name ++ "," ++
                     strings.Trim (strings.Replace1 pkg name "") "-")%string])%list
      end
  end.

(** The [apk] case once both listings are there: from the two trims to
    [managerQuery = []byte(strings.Join(mq, "\n"))]. *)
Definition apkManagerQuery (apkInfo apkInfoWithVersion : string)
  : outcome string :=
  let apkInfoT := strings.TrimSuffix apkInfo LF in
  let apkInfoArray := strings.Split apkInfoT LF in
  let apkInfoWithVersionT := strings.TrimSuffix apkInfoWithVersion LF in
  let apkInfoWithVersionArray := strings.Split apkInfoWithVersionT LF in
  match apkLoop apkInfoArray 0 apkInfoWithVersionArray [] with
  | Panics msg => Panics msg
  | Returns mq => Returns (strings.Join mq LF)
  end.

(** How the [switch manager] of the enumerator is left: with the query
    output, through one of its [return manifest, ...] statements (with the
    value the function's variable [err] holds at that point, which the
    deferred function reads), or by a panic. *)
Inductive queried :=
| Queried (managerQuery : string)
| Bailed (returned : error) (err : error)
| Crashed (msg : string).

Definition queryFailed : string := "unable to query packages from package manager".

Definition managerQuerySwitch (w : World) (manager : string) : queried :=
  if manager =? "rpm" then
    match rpm_qa w with
    | Failed e => Bailed (Wrap e queryFailed) (Some e)
    | Ok out => Queried out
    end
  else if manager =? "dpkg-query" then
    match dpkg_query_show w with
    | Failed e => Bailed (Wrap e queryFailed) (Some e)
    | Ok out => Queried out
    end
  else if manager =? "yum" then
    Bailed (Some "yum not yet supported") None
  else if manager =? "apk" then
    (* [apkInfo, err := ...] declares a new [err] in the case clause *)
    match apk_info w with
    | Failed e => Bailed (Wrap e queryFailed) None
    | Ok apkInfo =>
        match apk_info_v w with
        | Failed e => Bailed (Wrap e queryFailed) None
        | Ok apkInfoWithVersion =>
            match apkManagerQuery apkInfo apkInfoWithVersion with
            | Panics msg => Crashed msg
            | Returns managerQuery => Queried managerQuery
            end
        end
    end
  else
    Bailed (Some "this is most likely a mistake on us, please report it to support@lacework.com.")
           None.

(** [for _, pkg := range strings.Split(managerQueryOut, "\n")]. *)
Fixpoint parseLoop (osInfo : OS) (pkgs : list string)
    (manifest : PackageManifest) : M PackageManifest :=
  match pkgs with
  | [] => ret manifest
  | pkg :: rest =>
      match strings.Split pkg "," with
      | [name; version] =>           (* len(pkgDetail) == 2 *)
          parseLoop osInfo rest
            (appendPkg manifest {| Os := Name osInfo; OsVer := Version osInfo;
                                   Pkg := name; PkgVer := version |})
      | _ =>
          Warnw "unable to parse package, expected length=2, skipping" ;;
          parseLoop osInfo rest manifest
      end
  end.

(** Lines 145 to 168: from the raw query output to the manifest. *)
Definition parseManagerQuery (osInfo : OS) (managerQuery : string)
    (manifest : PackageManifest) : M PackageManifest :=
  let managerQueryOut := strings.TrimSuffix managerQuery LF in
  parseLoop osInfo (strings.Split managerQueryOut LF) manifest.

(** ** Manifest assembler *)

Section Assembler.

(** The feature name of the event, a constant declared elsewhere in the
    package. *)
Variable featGenPkgManifest : string.

(** The deferred function, as far as it is modelled: the event is sent
    when the function's variable [err] is [nil]. *)
Definition deferred (err : error) : M unit :=
  match err with
  | None => SendHoneyvent
  | Some _ => ret tt
  end.

Definition GeneratePackageManifest (w : World)
  : M (outcome (PackageManifest * error)) :=
  setFeature featGenPkgManifest ;;
  let manifest := newPackageManifest in
  '(osInfo, err) <- GetOSInfo w ;;
  match err with
  | Some _ => deferred err ;; ret (Returns (manifest, err))
  | None =>
      AddFeatureField "os" (FStr (Name osInfo)) ;;
      AddFeatureField "os_ver" (FStr (Version osInfo)) ;;
      '(manager, err) <- DetectPackageManager w ;;
      match err with
      | Some _ => deferred err ;; ret (Returns (manifest, err))
      | None =>
          AddFeatureField "pkg_manager" (FStr manager) ;;
          match managerQuerySwitch w manager with
          | Crashed msg => deferred err ;; ret (Panics msg)
          | Bailed returned err =>
              deferred err ;; ret (Returns (manifest, returned))
          | Queried managerQuery =>
              Debugw "package-manager query" ;;
              manifest <- parseManagerQuery osInfo managerQuery manifest ;;
              AddFeatureField "total_manifest_pkgs"
                (FInt (Z.of_nat (List.length (OsPkgInfoList manifest)))) ;;
              Debugw "package-manifest" ;;
              filtered <- removeInactivePackagesFromManifest w manifest manager ;;
              deferred err ;;
              ret (Returns (filtered, None))
          end
      end
  end.

End Assembler.

(** ** The pipeline without the state *)

(** The log and the telemetry event are only written: what a method
    returns is a function of the host.  These are the returned values,
    stage by stage. *)

Definition osInfoOf (w : World) : OS * error :=
  match os_release w with
  | Failed _ => ({| Name := ""; Version := "" |}, Some unsupportedPlatform)
  | Ok content =>
      (scanLoop (Scanner content) {| Name := ""; Version := "" |}, None)
  end.

Definition isPresent (w : World) (manager : string) : bool :=
  match runErr (which w manager) with
  | OtherError =>
      match runErr (command_v w manager) with
      | OtherError => false
      | _ => (ExitStatus (command_v w manager) =? 0)%Z
      end
  | _ => (ExitStatus (which w manager) =? 0)%Z
  end.

Definition noManagerFound : string :=
  "unable to find supported package managers. Supported package managers are dpkg-query, rpm.".

Definition managerOf (w : World) : string * error :=
  match find (isPresent w) SupportedPackageManagers with
  | Some manager => (manager, None)
  | None => ("", Some noManagerFound)
  end.

(** The lines of the query output and the records one line contributes. *)
Definition linesOf (managerQuery : string) : list string :=
  strings.Split (strings.TrimSuffix managerQuery LF) LF.

Definition recordsOfLine (osInfo : OS) (pkg : string) : list OsPkgInfo :=
  match strings.Split pkg "," with
  | [name; version] =>
      [ {| Os := Name osInfo; OsVer := Version osInfo;
           Pkg := name; PkgVer := version |} ]
  | _ => []
  end.

(** The decision of the loop body of the kernel filter: is this record
    dropped? *)
Definition dropped (manager activeKernel : string) (pkg : OsPkgInfo) : bool :=
  if manager =? "rpm" then
    (Pkg pkg =? "kernel")
    && negb (strings.Contains activeKernel (removeEpochFromPkgVersion (PkgVer pkg)))
  else if manager =? "dpkg-query" then
    strings.Contains (Pkg pkg) "linux-image-"
    && negb (strings.Contains activeKernel
               (strings.TrimPrefix (Pkg pkg) "linux-image-"))
  else false.

Definition filteredBy (w : World) (manager : string) (pkgs : list OsPkgInfo)
  : list OsPkgInfo :=
  match uname_r w with
  | Ok kernel =>
      filter (fun pkg => negb (dropped manager (strings.TrimSuffix kernel LF) pkg))
             pkgs
  | Failed _ => pkgs
  end.

Definition generated (w : World) : outcome (PackageManifest * error) :=
  match osInfoOf w with
  | (_, Some e) => Returns (newPackageManifest, Some e)
  | (osInfo, None) =>
      match managerOf w with
      | (_, Some e) => Returns (newPackageManifest, Some e)
      | (manager, None) =>
          match managerQuerySwitch w manager with
          | Crashed msg => Panics msg
          | Bailed returned _ => Returns (newPackageManifest, returned)
          | Queried managerQuery =>
              Returns
                ({| OsPkgInfoList :=
                      filteredBy w manager
                        (flat_map (recordsOfLine osInfo) (linesOf managerQuery)) |},
                 None)
          end
      end
  end.

(** The error a call of the assembler hands to its caller. *)
Definition returnedError (o : outcome (PackageManifest * error)) : outcome error :=
  match o with
  | Returns (_, err) => Returns err
  | Panics msg => Panics msg
  end.

(** The lines of one of the two apk listings, as the enumerator cuts
    them, and the line the reconstruction loop appends for one
    position. *)
Definition apkLines (listing : string) : list string :=
  strings.Split (strings.TrimSuffix listing LF) LF.

Definition apkLine (entry : string * string) : string :=
  let (name, pkg) := entry in
  name ++ "," ++ strings.Trim (strings.Replace1 pkg name "") "-".

(** ** Notions the properties are stated with *)

(** The number of colons of a string, and the text after its first
    colon. *)
Fixpoint colons (s : string) : nat :=
  match s with
  | EmptyString => 0
  | String a s' => if Ascii.eqb ":" a then S (colons s') else colons s'
  end.

Fixpoint afterFirstColon (s : string) : string :=
  match s with
  | EmptyString => EmptyString
  | String a s' => if Ascii.eqb ":" a then s' else afterFirstColon s'
  end.

(** The epoch removal in the words of the specification: everything up
    to and including the first colon is stripped, a string without a
    colon is left as it is. *)
Definition stripEpochPrefix (pkgVer : string) : string :=
  match colons pkgVer with
  | O => pkgVer
  | S _ => afterFirstColon pkgVer
  end.

(** The apk line in the words of the specification: the name prefix of
    the versioned entry is stripped, then any leading hyphen. *)
Definition apkLineByPrefix (entry : string * string) : string :=
  let (name, pkg) := entry in
  name ++ "," ++ strings.TrimLeft (strings.TrimPrefix pkg name) "-".

(** The lines of a text in the usual sense: the pieces between line
    terminators, a final piece being a line when it is not empty, each
    without one trailing carriage return. *)
Fixpoint dropFinalEmpty (pieces : list string) : list string :=
  match pieces with
  | [] => []
  | [final] => if final =? "" then [] else [final]
  | line :: rest => line :: dropFinalEmpty rest
  end.

Definition textLines (content : string) : list string :=
  map dropCR (dropFinalEmpty (strings.Split content LF)).

(** The group of the last text that matches [re], double quotes trimmed;
    [default] when no text matches. *)
Fixpoint lastValue (re : Regexp) (texts : list string) (default : string)
  : string :=
  match texts with
  | [] => default
  | text :: rest =>
      match FindStringSubmatch re text with
      | Some m => lastValue re rest (strings.Trim (nth 1 m "") quote)
      | None => lastValue re rest default
      end
  end.

(** A text of [terminated] lines, each followed by a line terminator. *)
Fixpoint unlines (terminated : list string) : string :=
  match terminated with
  | [] => ""
  | line :: rest => line ++ LF ++ unlines rest
  end.

(** ** Sample hosts and inputs *)

Definition present : Run := {| runErr := NoError; ExitStatus := 0 |}.
Definition absent : Run := {| runErr := ExitError; ExitStatus := 1 |}.
Definition broken : Run := {| runErr := OtherError; ExitStatus := 0 |}.

Definition emptyState : cliState :=
  {| Event := {| Feature := ""; FeatureData := [] |}; Log := []; Sent := 0 |}.

(** An rpm host that runs kernel [5.10.0-2.el8] and still has the
    package of kernel [5.10.0-1] installed. *)
Definition centos : World :=
  {| os_release := Ok ("NAME=CentOS" ++ LF ++ "ID=" ++ quote ++ "centos" ++ quote
                       ++ LF ++ "VERSION_ID=" ++ quote ++ "8" ++ quote ++ LF);
     which := fun m => if m =? "rpm" then present else absent;
     command_v := fun _ => absent;
     rpm_qa := Ok ("kernel,0:5.10.0-1" ++ LF ++ "onlyonefield" ++ LF
                   ++ "bash,0:5.1-2" ++ LF);
     dpkg_query_show := Failed "exec: not found";
     apk_info := Failed "exec: not found";
     apk_info_v := Failed "exec: not found";
     uname_r := Ok ("5.10.0-2.el8" ++ LF) |}.

Definition sampleManifest : PackageManifest :=
  {| OsPkgInfoList :=
       [ {| Os := "centos"; OsVer := "8"; Pkg := "kernel"; PkgVer := "0:5.10.0-1" |};
         {| Os := "centos"; OsVer := "8"; Pkg := "bash"; PkgVer := "0:5.1-2" |} ] |}.

(** The host [w] with another outcome of [uname -r], and with another
    release file. *)
Definition withUname (w : World) (r : result string) : World :=
  {| os_release := os_release w; which := which w; command_v := command_v w;
     rpm_qa := rpm_qa w; dpkg_query_show := dpkg_query_show w;
     apk_info := apk_info w; apk_info_v := apk_info_v w; uname_r := r |}.

Definition withRelease (w : World) (content : string) : World :=
  {| os_release := Ok content; which := which w; command_v := command_v w;
     rpm_qa := rpm_qa w; dpkg_query_show := dpkg_query_show w;
     apk_info := apk_info w; apk_info_v := apk_info_v w; uname_r := uname_r w |}.

Definition centosWithoutUname : World :=
  withUname centos (Failed "exec: uname: executable file not found in $PATH").

(** A dpkg host, with both managers on the path, that runs kernel
    [5.10.0-generic]. *)
Definition debian : World :=
  {| os_release := Ok ("ID=debian" ++ LF ++ "VERSION_ID=" ++ quote ++ "11" ++ quote ++ LF);
     which := fun _ => present;
     command_v := fun _ => present;
     rpm_qa := Ok "";
     dpkg_query_show := Ok ("custom-linux-image-5.10.0-generic,1.0" ++ LF
                            ++ "linux-image-5.10.0,1.0" ++ LF
                            ++ "linux-image-4.19.0,1.0" ++ LF
                            ++ "curl,7.2" ++ LF);
     apk_info := Failed "exec: not found";
     apk_info_v := Failed "exec: not found";
     uname_r := Ok ("5.10.0-generic" ++ LF) |}.

Definition debianPkg (name version : string) : OsPkgInfo :=
  {| Os := "debian"; OsVer := "11"; Pkg := name; PkgVer := version |}.

(** A host with only rpm, behind a [which] that cannot be started, and a
    host with no manager at all. *)
Definition rpmBehindBrokenWhich : World :=
  {| os_release := os_release centos;
     which := fun _ => broken;
     command_v := fun m => if m =? "rpm" then present else absent;
     rpm_qa := rpm_qa centos; dpkg_query_show := dpkg_query_show centos;
     apk_info := apk_info centos; apk_info_v := apk_info_v centos;
     uname_r := uname_r centos |}.

Definition bare : World :=
  {| os_release := os_release centos;
     which := fun _ => absent;
     command_v := fun _ => absent;
     rpm_qa := rpm_qa centos; dpkg_query_show := dpkg_query_show centos;
     apk_info := apk_info centos; apk_info_v := apk_info_v centos;
     uname_r := uname_r centos |}.

(** An rpm host whose active kernel string holds a colon, and a manifest
    with a kernel package whose version holds two. *)
Definition colonKernel : World := withUname centos (Ok ("5.10:1" ++ LF)).

Definition colonManifest : PackageManifest :=
  {| OsPkgInfoList :=
       [ {| Os := "centos"; OsVer := "8"; Pkg := "kernel"; PkgVer := "0:5.10:1" |} ] |}.

(** A line of 65536 bytes, none of them a line terminator. *)
Definition longLine : string :=
  Pos.iter (String "x"%char) "" 65536%positive.

(** ** Proof steps *)

(** The cases of the length test on the fields of a line. *)
Ltac by_fields line :=
  destruct (strings.Split line ",") as [|? [|? [|? ?]]].


(** ** What the methods write *)

(** The fields of the event, and what it means for a method to leave an
    observation of the state as it found it. *)
Definition fields (c : cliState) : list (string * fieldValue) :=
  FeatureData (Event c).

Definition keeps {X A : Type} (obs : cliState -> X) (m : M A) : Prop :=
  forall c, obs (snd (m c)) = obs c.

(** A method sends [n a] events when it returns [a]. *)
Definition sends {A : Type} (m : M A) (n : A -> nat) : Prop :=
  forall c, Sent (snd (m c)) = n (fst (m c)) + Sent c.

(** The events a call of the assembler owes: one when it returns no
    error. *)
Definition sentFor (o : outcome (PackageManifest * error)) : nat :=
  match o with
  | Returns (_, None) => 1
  | _ => 0
  end.

(** The field the kernel filter records for the package it drops at
    position [i], and the fields it records over a whole list that starts
    at position [i]. *)
Definition suppressedField (i : nat) (pkg : OsPkgInfo) : string * fieldValue :=
  ("kernel_suppressed_" ++ decimal i, FStr (Pkg pkg ++ "-" ++ PkgVer pkg)).

Fixpoint suppressedFields (manager activeKernel : string) (i : nat)
    (pkgs : list OsPkgInfo) : list (string * fieldValue) :=
  match pkgs with
  | [] => []
  | pkg :: rest =>
      if dropped manager activeKernel pkg
      then suppressedField i pkg :: suppressedFields manager activeKernel (S i) rest
      else suppressedFields manager activeKernel (S i) rest
  end.

Definition inactiveKernelWarning : level * string :=
  (WarnLevel, "inactive kernel package detected, removing from generated pkg manifest").

Definition manifestModified : level * string :=
  (DebugLevel, "package-manifest modified").

Definition unableToParse : level * string :=
  (WarnLevel, "unable to parse package, expected length=2, skipping").

(** The error of a failed query of the package manager. *)
Definition queryError (e : string) : string :=
  "unable to query packages from package manager: " ++ e.

(** A host with no readable release file, and a dpkg host on which the
    query of dpkg fails although rpm is installed and answers. *)
Definition noRelease : World :=
  {| os_release := Failed "open /etc/os-release: no such file or directory";
     which := which centos; command_v := command_v centos;
     rpm_qa := rpm_qa centos; dpkg_query_show := dpkg_query_show centos;
     apk_info := apk_info centos; apk_info_v := apk_info_v centos;
     uname_r := uname_r centos |}.

Definition debianBrokenDpkg : World :=
  {| os_release := os_release debian;
     which := fun _ => present;
     command_v := fun _ => present;
     rpm_qa := Ok ("bash,0:5.1-2" ++ LF);
     dpkg_query_show := Failed "exit status 2";
     apk_info := apk_info debian; apk_info_v := apk_info_v debian;
     uname_r := uname_r debian |}.

(** What the assembler returns once [manager], one of the two supported
    managers, is detected: the failure of its query, or the parsed and
    filtered manifest. *)
Definition enumerated (w : World) (osInfo : OS) (manager : string)
    (query : result string) : outcome (PackageManifest * error) :=
  match query with
  | Failed e => Returns (newPackageManifest, Some (queryError e))
  | Ok managerQuery =>
      Returns
        ({| OsPkgInfoList :=
              filteredBy w manager
                (flat_map (recordsOfLine osInfo) (linesOf managerQuery)) |},
         None)
  end.

(** The state after a method that added [newFields] to the event and
    [entries] to the log. *)
Definition written (c : cliState) (newFields : list (string * fieldValue))
    (entries : list (level * string)) : cliState :=
  {| Event := {| Feature := Feature (Event c);
                 FeatureData := (fields c ++ newFields)%list |};
     Log := (Log c ++ entries)%list;
     Sent := Sent c |}.

Definition kernelNotDetected : level * string :=
  (WarnLevel, "unable to detect active kernel").


(** ** Notions of the further properties *)

(** The number of occurrences of a byte in a string. *)
Fixpoint countByte (b : ascii) (s : string) : nat :=
  match s with
  | EmptyString => 0
  | String a s' => if Ascii.eqb b a then S (countByte b s') else countByte b s'
  end.

(** The lines of the query output that the parser skips. *)
Definition malformed (pkgs : list string) : list string :=
  filter (fun pkg => negb (List.length (strings.Split pkg ",") =? 2)%nat) pkgs.

(** The line a package manager prints for a package, in the format both
    queries ask for, and the record the parser makes of a package. *)
Definition queryLine (pkg : string * string) : string :=
  fst pkg ++ "," ++ snd pkg.

Definition recordOf (osInfo : OS) (pkg : string * string) : OsPkgInfo :=
  {| Os := Name osInfo; OsVer := Version osInfo;
     Pkg := fst pkg; PkgVer := snd pkg |}.

(** A name or version that holds neither a comma nor a line
    terminator. *)
Definition plain (s : string) : Prop :=
  strings.Contains s "," = false /\ strings.Contains s LF = false.

(** An rpm host whose query prints well-formed lines. *)
Definition centosPackages : list (string * string) :=
  [("kernel", "0:5.10.0-1"); ("kernel", "0:5.10.0-2.el8"); ("bash", "0:5.1-2")].

Definition centosClean : World :=
  {| os_release := os_release centos;
     which := which centos; command_v := command_v centos;
     rpm_qa := Ok (unlines (map queryLine centosPackages));
     dpkg_query_show := dpkg_query_show centos;
     apk_info := apk_info centos; apk_info_v := apk_info_v centos;
     uname_r := Ok ("5.10.0-2.el8.x86_64" ++ LF) |}.

(** The first and the last byte of a string. *)
Definition firstByte (s : string) : option ascii :=
  match s with
  | EmptyString => None
  | String a _ => Some a
  end.

Fixpoint lastByte (s : string) : option ascii :=
  match s with
  | EmptyString => None
  | String a s' =>
      match lastByte s' with
      | None => Some a
      | last => last
      end
  end.

(** The entry [apk info -v] prints for a package. *)
Definition versionedEntry (pkg : string * string) : string :=
  fst pkg ++ "-" ++ snd pkg.

(** A method adds the fields [l] to the event. *)
Definition adds {A : Type} (m : M A) (l : list (string * fieldValue)) : Prop :=
  forall c, fields (snd (m c)) = (fields c ++ l)%list.

(** The fields the kernel filter adds for the records [pkgs]. *)
Definition kernelFields (w : World) (manager : string) (pkgs : list OsPkgInfo)
  : list (string * fieldValue) :=
  match uname_r w with
  | Ok kernel =>
      ("active_kernel", FStr (strings.TrimSuffix kernel LF))
      :: suppressedFields manager (strings.TrimSuffix kernel LF) 0 pkgs
  | Failed _ => [("active_kernel", FStr "")]
  end.

Definition whichFailed : level * string :=
  (WarnLevel, "something went wrong with 'which', trying native command").

Definition checkFailed : level * string :=
  (DebugLevel, "error trying to check package-manager").

(** * Properties *)

(** ** Sample evaluations *)

Example split_sample :
  strings.Split "kernel,0:5.10.0-1" "," = ["kernel"; "0:5.10.0-1"]
  /\ strings.Split "a,,b" "," = ["a"; ""; "b"]
  /\ strings.Split "" "," = [""]
  /\ strings.Split "aaa" "aa" = [""; "a"]
  /\ strings.Trim "--1.2-r0-" "-" = "1.2-r0"
  /\ strings.Replace1 "musl-1.2" "musl" "" = "-1.2"
  /\ strings.TrimSuffix ("5.10" ++ LF ++ LF) LF = "5.10" ++ LF
  /\ strings.Contains "5.10.0-generic" "5.10.0" = true
  /\ strings.Split ("a" ++ LF ++ LF ++ "b") LF = ["a"; ""; "b"]
  /\ strings.Trim "--1.2-r0-" "-" = "1.2-r0"
  /\ strings.Trim "---" "-" = ""
  /\ strings.TrimSuffix LF LF = ""
  /\ decimal 0 = "0" /\ decimal 42 = "42".
Proof. repeat split; reflexivity. Qed.

Example epoch_sample :
  removeEpochFromPkgVersion "0:5.10.0-1" = "5.10.0-1"
  /\ removeEpochFromPkgVersion "5.10.0-1" = "5.10.0-1"
  /\ removeEpochFromPkgVersion "7:" = ""
  /\ removeEpochFromPkgVersion ":" = "".
Proof. repeat split; reflexivity. Qed.

Example scanner_sample :
  Scanner ("a" ++ CR ++ LF ++ LF ++ "b") = ["a"; ""; "b"]
  /\ Scanner ("a" ++ LF) = ["a"]
  /\ Scanner "" = []
  /\ Scanner LF = [""]
  /\ FindStringSubmatch rexNameFromID "ID=ubuntu" = Some ["ID=ubuntu"; "ubuntu"]
  /\ FindStringSubmatch rexNameFromID "VERSION_ID=22.04" = None
  /\ FindStringSubmatch rexNameFromID " ID=ubuntu" = None.
Proof. repeat split; reflexivity. Qed.

Example centos_run :
  fst (GeneratePackageManifest "gen_pkg_manifest" centos emptyState)
  = Returns ({| OsPkgInfoList :=
                  [ {| Os := "centos"; OsVer := "8";
                       Pkg := "bash"; PkgVer := "0:5.1-2" |} ] |}, None).
Proof. reflexivity. Qed.

Example debian_run :
  fst (GeneratePackageManifest "gen_pkg_manifest" debian emptyState)
  = Returns ({| OsPkgInfoList :=
                  [ debianPkg "linux-image-5.10.0" "1.0";
                    debianPkg "curl" "7.2" ] |}, None).
Proof. reflexivity. Qed.

(** ** Strings *)

Lemma HasPrefix_empty s : strings.HasPrefix s "" = true.
Proof. now destruct s. Qed.

Lemma HasPrefix_app name rest : strings.HasPrefix (name ++ rest) name = true.
Proof.
  induction name as [|a name IH]; [apply HasPrefix_empty|].
  cbn [append strings.HasPrefix]. now rewrite Ascii.eqb_refl, IH.
Qed.

Lemma drop_app name rest : strings.drop (length name) (name ++ rest) = rest.
Proof. induction name as [|a name IH]; [reflexivity|exact IH]. Qed.

Lemma HasPrefix_split s prefix :
  strings.HasPrefix s prefix = true ->
  s = prefix ++ strings.drop (length prefix) s.
Proof.
  revert s. induction prefix as [|a prefix IH]; intros s H; [reflexivity|].
  destruct s as [|b s]; [discriminate|].
  cbn [strings.HasPrefix] in H. apply andb_true_iff in H as [Hab Hrest].
  apply Ascii.eqb_eq in Hab as ->.
  cbn [length strings.drop append]. now rewrite <- (IH s Hrest).
Qed.

(** [HasPrefix] and [Contains] are what their names say. *)
Lemma HasPrefix_iff s prefix :
  strings.HasPrefix s prefix = true <-> exists rest, s = prefix ++ rest.
Proof.
  split.
  - intros H. eexists. now apply HasPrefix_split.
  - intros [rest ->]. apply HasPrefix_app.
Qed.

Lemma Index_unfold s substr :
  strings.Index s substr
  = if strings.HasPrefix s substr then 0%Z
    else match s with
         | EmptyString => (-1)%Z
         | String _ s' =>
             let r := strings.Index s' substr in
             if (r <? 0)%Z then (-1)%Z else (1 + r)%Z
         end.
Proof. now destruct s. Qed.

Lemma Index_lower_bound s substr : (-1 <= strings.Index s substr)%Z.
Proof.
  induction s as [|a s IH]; rewrite Index_unfold;
    destruct (strings.HasPrefix _ substr); try lia.
  cbv zeta. destruct (strings.Index s substr <? 0)%Z eqn:E; [lia|].
  apply Z.ltb_ge in E. lia.
Qed.

Lemma Contains_iff s substr :
  strings.Contains s substr = true
  <-> exists before after, s = before ++ substr ++ after.
Proof.
  unfold strings.Contains. rewrite Z.leb_le. split.
  - induction s as [|a s IH]; rewrite Index_unfold;
      destruct (strings.HasPrefix _ substr) eqn:Hp.
    + intros _. exists "". eexists. now apply HasPrefix_split.
    + lia.
    + intros _. exists "". eexists. now apply HasPrefix_split.
    + cbv zeta. destruct (strings.Index s substr <? 0)%Z eqn:E; [lia|].
      apply Z.ltb_ge in E. intros _.
      destruct (IH E) as [before [after ->]].
      now exists (String a before), after.
  - intros [before [after ->]].
    induction before as [|a before IH].
    + rewrite Index_unfold. cbn [append]. now rewrite HasPrefix_app.
    + rewrite Index_unfold.
      destruct (strings.HasPrefix _ substr); [lia|].
      cbn [append]. cbv zeta.
      destruct (strings.Index (before ++ substr ++ after) substr <? 0)%Z eqn:E;
        [apply Z.ltb_lt in E|]; lia.
Qed.

(** ** Results do not depend on the client state *)

(** The log and the telemetry event are write-only: the value a method
    returns is the same in every state. *)

Lemma fst_bind {A B} (m : M A) (k : A -> M B) (c : cliState) :
  fst (bind m k c) = fst (k (fst (m c)) (snd (m c))).
Proof. unfold bind. destruct (m c); reflexivity. Qed.

Lemma inactiveKernelPkg_dropped manager activeKernel i pkg c :
  fst (inactiveKernelPkg manager activeKernel i pkg c)
  = dropped manager activeKernel pkg.
Proof.
  unfold inactiveKernelPkg, dropped.
  destruct (manager =? "rpm").
  - destruct (_ && _); reflexivity.
  - destruct (manager =? "dpkg-query"); [|reflexivity].
    destruct (strings.Contains (Pkg pkg) "linux-image-"); [|reflexivity].
    destruct (negb _); reflexivity.
Qed.

Lemma filterLoop_filter manager activeKernel pkgs :
  forall i newManifest c,
    OsPkgInfoList (fst (filterLoop manager activeKernel i pkgs newManifest c))
    = (OsPkgInfoList newManifest
       ++ filter (fun pkg => negb (dropped manager activeKernel pkg)) pkgs)%list.
Proof.
  induction pkgs as [|pkg rest IH]; intros i newManifest c.
  - simpl. now rewrite app_nil_r.
  - cbn [filterLoop filter]. rewrite fst_bind, inactiveKernelPkg_dropped.
    destruct (dropped manager activeKernel pkg); cbn [negb].
    + apply IH.
    + rewrite IH. cbn [appendPkg OsPkgInfoList].
      now rewrite <- app_assoc.
Qed.

Lemma detectActiveKernel_fst w c :
  fst (detectActiveKernel w c)
  = match uname_r w with
    | Ok kernel => (strings.TrimSuffix kernel LF, true)
    | Failed _ => ("", false)
    end.
Proof. unfold detectActiveKernel. destruct (uname_r w); reflexivity. Qed.

(** The filter as a function of the records alone. *)
Lemma removeInactive_records w manifest manager c :
  OsPkgInfoList (fst (removeInactivePackagesFromManifest w manifest manager c))
  = match uname_r w with
    | Ok kernel =>
        filter (fun pkg => negb (dropped manager (strings.TrimSuffix kernel LF) pkg))
               (OsPkgInfoList manifest)
    | Failed _ => OsPkgInfoList manifest
    end.
Proof.
  unfold removeInactivePackagesFromManifest.
  rewrite fst_bind, detectActiveKernel_fst.
  destruct (uname_r w) as [kernel|e]; [|reflexivity].
  cbn [negb]. rewrite !fst_bind.
  change (fst (ret ?a ?c)) with a.
  now rewrite filterLoop_filter.
Qed.

(** ** Kernel detection *)

Lemma length_app_LF k : length (k ++ LF) = S (length k).
Proof.
  induction k as [|a k IH]; [reflexivity|].
  cbn [append length]. now rewrite IH.
Qed.

Lemma take_app k rest : strings.take (length k) (k ++ rest) = k.
Proof.
  induction k as [|a k IH]; [now destruct rest|].
  cbn [append length strings.take]. now rewrite IH.
Qed.

Lemma TrimSuffix_app_LF k : strings.TrimSuffix (k ++ LF) LF = k.
Proof.
  unfold strings.TrimSuffix, strings.HasSuffix.
  rewrite length_app_LF. cbn [length LF Nat.sub Nat.leb].
  rewrite Nat.sub_0_r, drop_app, String.eqb_refl. cbn [andb].
  apply take_app.
Qed.

(** Every string is the active kernel of some host: the one on which
    [uname -r] prints it, followed by a line terminator. *)
Lemma every_kernel_string_is_detected w k c :
  fst (detectActiveKernel (withUname w (Ok (k ++ LF))) c) = (k, true).
Proof.
  rewrite detectActiveKernel_fst. cbn [uname_r withUname].
  now rewrite TrimSuffix_app_LF.
Qed.

(** ** Active kernel filter under rpm *)

(** What the filter does under rpm, with the epoch removal as the code
    has it. *)
Lemma rpm_filter_as_coded :
  forall (w : World) (manifest : PackageManifest) (c : cliState)
         (activeKernel : string),
    fst (detectActiveKernel w c) = (activeKernel, true) ->
    OsPkgInfoList (fst (removeInactivePackagesFromManifest w manifest "rpm" c))
    = filter
        (fun pkg =>
           negb ((Pkg pkg =? "kernel")
                 && negb (strings.Contains activeKernel
                            (removeEpochFromPkgVersion (PkgVer pkg)))))
        (OsPkgInfoList manifest).
Proof.
  intros w manifest c activeKernel Hdetect.
  rewrite removeInactive_records.
  rewrite detectActiveKernel_fst in Hdetect.
  destruct (uname_r w) as [kernel|e]; [|discriminate].
  injection Hdetect as <-. reflexivity.
Qed.

(** ** Idempotence *)

Lemma filter_twice {A} (keep : A -> bool) (l : list A) :
  filter keep (filter keep l) = filter keep l.
Proof.
  induction l as [|a l IH]; [reflexivity|].
  cbn [filter]. destruct (keep a) eqn:E; [|exact IH].
  cbn [filter]. now rewrite E, IH.
Qed.

(** C4. Filtering is idempotent: for every manifest, every manager (rpm
    and dpkg-query among them) and every host, that is every outcome of
    the kernel detection, filtering the filtered manifest again gives the
    same record list. *)
Theorem filter_idempotent :
  forall (w : World) (manifest : PackageManifest) (manager : string)
         (c c' : cliState),
    let filtered := fst (removeInactivePackagesFromManifest w manifest manager c) in
    OsPkgInfoList (fst (removeInactivePackagesFromManifest w filtered manager c'))
    = OsPkgInfoList filtered.
Proof.
  intros w manifest manager c c' filtered. subst filtered.
  rewrite !removeInactive_records.
  destruct (uname_r w) as [kernel|e]; [|reflexivity].
  apply filter_twice.
Qed.

(** ** The pipeline as a function of the host *)

Lemma manifest_eta (m : PackageManifest) :
  m = {| OsPkgInfoList := OsPkgInfoList m |}.
Proof. now destruct m. Qed.

Lemma removeInactive_fst w manifest manager c :
  fst (removeInactivePackagesFromManifest w manifest manager c)
  = {| OsPkgInfoList := filteredBy w manager (OsPkgInfoList manifest) |}.
Proof.
  rewrite (manifest_eta (fst _)), removeInactive_records.
  unfold filteredBy. now destruct (uname_r w).
Qed.

Lemma GetOSInfo_fst w c : fst (GetOSInfo w c) = osInfoOf w.
Proof.
  unfold GetOSInfo, osInfoOf. rewrite fst_bind.
  destruct (os_release w); reflexivity.
Qed.

Lemma checkNative_fst w manager c :
  fst (checkPackageManagerWithNativeCommand w manager c)
  = match runErr (command_v w manager) with
    | OtherError => false
    | _ => (ExitStatus (command_v w manager) =? 0)%Z
    end.
Proof.
  unfold checkPackageManagerWithNativeCommand.
  destruct (runErr (command_v w manager)); reflexivity.
Qed.

Lemma checkPackageManager_fst w manager c :
  fst (checkPackageManager w manager c) = isPresent w manager.
Proof.
  unfold checkPackageManager, isPresent.
  destruct (runErr (which w manager)); try reflexivity.
  now rewrite !fst_bind, checkNative_fst.
Qed.

Lemma detectLoop_find w managers :
  forall c, fst (detectLoop w managers c) = find (isPresent w) managers.
Proof.
  induction managers as [|manager rest IH]; intros c; [reflexivity|].
  cbn [detectLoop find]. rewrite fst_bind, checkPackageManager_fst.
  destruct (isPresent w manager); [reflexivity|apply IH].
Qed.

Lemma DetectPackageManager_fst w c :
  fst (DetectPackageManager w c) = managerOf w.
Proof.
  unfold DetectPackageManager, managerOf.
  rewrite !fst_bind, detectLoop_find.
  destruct (find _ _); reflexivity.
Qed.

Lemma parseLoop_records osInfo pkgs :
  forall manifest c,
    fst (parseLoop osInfo pkgs manifest c)
    = {| OsPkgInfoList :=
           (OsPkgInfoList manifest ++ flat_map (recordsOfLine osInfo) pkgs)%list |}.
Proof.
  induction pkgs as [|pkg rest IH]; intros manifest c.
  - cbn. rewrite app_nil_r. apply manifest_eta.
  - cbn [parseLoop flat_map]. unfold recordsOfLine at 1.
    by_fields pkg; cbv beta iota; try (rewrite fst_bind, IH; reflexivity).
    rewrite IH. cbn [appendPkg OsPkgInfoList]. now rewrite <- app_assoc.
Qed.

Lemma parseManagerQuery_fst osInfo managerQuery c :
  fst (parseManagerQuery osInfo managerQuery newPackageManifest c)
  = {| OsPkgInfoList := flat_map (recordsOfLine osInfo) (linesOf managerQuery) |}.
Proof. unfold parseManagerQuery. now rewrite parseLoop_records. Qed.

Lemma GeneratePackageManifest_fst feat w c :
  fst (GeneratePackageManifest feat w c) = generated w.
Proof.
  unfold GeneratePackageManifest, generated.
  rewrite !fst_bind, GetOSInfo_fst.
  destruct (osInfoOf w) as [osInfo [e|]]; [reflexivity|].
  rewrite !fst_bind, DetectPackageManager_fst.
  destruct (managerOf w) as [manager [e|]]; [reflexivity|].
  rewrite !fst_bind.
  destruct (managerQuerySwitch w manager) as [managerQuery|returned err|msg];
    [|now rewrite fst_bind..].
  rewrite !fst_bind, parseManagerQuery_fst, removeInactive_fst.
  reflexivity.
Qed.

(** ** Kernel detection failure *)

(** C5. When the kernel detection command fails, the filter returns the
    manifest it was given, whatever the manager; the error the assembler
    returns is the one it returns on the same host with any other outcome
    of the detection; and once the enumeration has succeeded the assembler
    returns the parsed, unfiltered manifest with a [nil] error. *)
Theorem kernel_detection_failure_skips_filter :
  forall (w : World) (e : string),
    uname_r w = Failed e ->
    (forall manifest manager c,
        fst (removeInactivePackagesFromManifest w manifest manager c) = manifest)
    /\ (forall feat c r,
           returnedError (fst (GeneratePackageManifest feat w c))
           = returnedError (fst (GeneratePackageManifest feat (withUname w r) c)))
    /\ (forall feat c osInfo manager managerQuery,
           osInfoOf w = (osInfo, None) ->
           managerOf w = (manager, None) ->
           managerQuerySwitch w manager = Queried managerQuery ->
           fst (GeneratePackageManifest feat w c)
           = Returns (fst (parseManagerQuery osInfo managerQuery
                                             newPackageManifest c), None)).
Proof.
  intros w e Huname. split; [|split].
  - intros manifest manager c.
    unfold removeInactivePackagesFromManifest, detectActiveKernel.
    now rewrite Huname.
  - intros feat c r. rewrite !GeneratePackageManifest_fst. unfold generated.
    change (osInfoOf (withUname w r)) with (osInfoOf w).
    change (managerOf (withUname w r)) with (managerOf w).
    destruct (osInfoOf w) as [osInfo [e1|]]; [reflexivity|].
    destruct (managerOf w) as [manager [e2|]]; [reflexivity|].
    change (managerQuerySwitch (withUname w r) manager)
      with (managerQuerySwitch w manager).
    now destruct (managerQuerySwitch w manager).
  - intros feat c osInfo manager managerQuery Hos Hmanager Hquery.
    rewrite GeneratePackageManifest_fst, parseManagerQuery_fst.
    unfold generated, filteredBy. now rewrite Hos, Hmanager, Hquery, Huname.
Qed.

Lemma kernel_detection_failure_skips_filter_witness :
  fst (removeInactivePackagesFromManifest centosWithoutUname sampleManifest "rpm"
         emptyState) = sampleManifest
  /\ fst (GeneratePackageManifest "gen_pkg_manifest" centosWithoutUname emptyState)
     = Returns ({| OsPkgInfoList :=
                     [ {| Os := "centos"; OsVer := "8";
                          Pkg := "kernel"; PkgVer := "0:5.10.0-1" |};
                       {| Os := "centos"; OsVer := "8";
                          Pkg := "bash"; PkgVer := "0:5.1-2" |} ] |}, None).
Proof.
  pose proof (kernel_detection_failure_skips_filter centosWithoutUname
                "exec: uname: executable file not found in $PATH" eq_refl)
    as [Hfilter [_ Hgenerate]].
  split.
  - apply Hfilter.
  - rewrite (Hgenerate "gen_pkg_manifest" emptyState
               {| Name := "centos"; Version := "8" |} "rpm"
               ("kernel,0:5.10.0-1" ++ LF ++ "onlyonefield" ++ LF
                ++ "bash,0:5.1-2" ++ LF));
      reflexivity.
Defined.

(** ** Active kernel filter under dpkg-query *)

(** What the filter does under dpkg-query: a record is dropped when its
    name contains ["linux-image-"] anywhere and the name, less that
    literal when it starts with it, is not a substring of the active
    kernel string. *)
Lemma dpkg_filter_as_coded :
  forall (w : World) (manifest : PackageManifest) (c : cliState)
         (activeKernel : string),
    fst (detectActiveKernel w c) = (activeKernel, true) ->
    OsPkgInfoList
      (fst (removeInactivePackagesFromManifest w manifest "dpkg-query" c))
    = filter
        (fun pkg =>
           negb (strings.Contains (Pkg pkg) "linux-image-"
                 && negb (strings.Contains activeKernel
                            (strings.TrimPrefix (Pkg pkg) "linux-image-"))))
        (OsPkgInfoList manifest).
Proof.
  intros w manifest c activeKernel Hdetect.
  rewrite removeInactive_records.
  rewrite detectActiveKernel_fst in Hdetect.
  destruct (uname_r w) as [kernel|e]; [|discriminate].
  injection Hdetect as <-. reflexivity.
Qed.

Lemma Contains_of_HasPrefix s prefix :
  strings.HasPrefix s prefix = true -> strings.Contains s prefix = true.
Proof.
  intros H. unfold strings.Contains.
  destruct s; cbn [strings.Index]; now rewrite H.
Qed.

(** Where the filter under dpkg-query and the prefix reading agree: a
    record whose name starts with ["linux-image-"] is dropped exactly
    when the rest of the name is not a substring of the active kernel
    string, and a record whose name does not contain the literal at all
    is kept. *)
Lemma dpkg_filter_on_prefixed_names activeKernel pkg :
  (strings.HasPrefix (Pkg pkg) "linux-image-" = true ->
   dropped "dpkg-query" activeKernel pkg
   = negb (strings.Contains activeKernel
             (strings.drop (length "linux-image-") (Pkg pkg))))
  /\ (strings.Contains (Pkg pkg) "linux-image-" = false ->
      dropped "dpkg-query" activeKernel pkg = false).
Proof.
  unfold dropped. cbn [String.eqb Ascii.eqb Bool.eqb].
  split; intros H.
  - rewrite (Contains_of_HasPrefix _ _ H). unfold strings.TrimPrefix.
    now rewrite H.
  - now rewrite H.
Qed.

(** C2, at the input where it fails.  The active kernel is
    [5.10.0-generic].  The record named
    [custom-linux-image-5.10.0-generic] does not start with the prefix
    ["linux-image-"], and the filter removes it all the same: the name
    contains the literal, the prefix trim leaves the name whole, and the
    whole name is not a substring of the active kernel string.  The three
    other records are treated as the claim says. *)
Theorem dpkg_filter_drops_name_without_prefix :
  strings.HasPrefix "custom-linux-image-5.10.0-generic" "linux-image-" = false
  /\ OsPkgInfoList
       (fst (removeInactivePackagesFromManifest debian
               {| OsPkgInfoList :=
                    [ debianPkg "custom-linux-image-5.10.0-generic" "1.0";
                      debianPkg "linux-image-5.10.0" "1.0";
                      debianPkg "linux-image-4.19.0" "1.0";
                      debianPkg "curl" "7.2" ] |}
               "dpkg-query" emptyState))
     = [ debianPkg "linux-image-5.10.0" "1.0"; debianPkg "curl" "7.2" ].
Proof. split; reflexivity. Qed.

(** ** Package manager detection *)

Lemma find_pointwise {A} (f g : A -> bool) (l : list A) :
  (forall a, f a = g a) -> find f l = find g l.
Proof.
  intros Hfg. induction l as [|a l IH]; [reflexivity|].
  cbn [find]. now rewrite Hfg, IH.
Qed.

(** C6. Detection walks the manager list in list order and returns the
    first manager whose presence check succeeds: on the fixed list,
    dpkg-query when its check succeeds (whatever the check of rpm says),
    else rpm when its check succeeds; when no check succeeds it fails with
    an error whose message names both managers that were tried. *)
Theorem detection_returns_first_present_manager :
  forall (w : World) (c c1 c2 : cliState),
    SupportedPackageManagers = ["dpkg-query"; "rpm"]
    /\ (forall managers,
           fst (detectLoop w managers c)
           = find (fun manager => fst (checkPackageManager w manager c1)) managers)
    /\ fst (DetectPackageManager w c)
       = (if fst (checkPackageManager w "dpkg-query" c1)
          then ("dpkg-query", None)
          else if fst (checkPackageManager w "rpm" c2)
               then ("rpm", None)
               else ("", Some noManagerFound))
    /\ (forall manager,
           In manager SupportedPackageManagers ->
           strings.Contains noManagerFound manager = true).
Proof.
  intros w c c1 c2. split; [reflexivity|]. split; [|split].
  - intros managers. rewrite detectLoop_find. apply find_pointwise.
    intros manager. now rewrite checkPackageManager_fst.
  - rewrite DetectPackageManager_fst, !checkPackageManager_fst.
    unfold managerOf. cbn [SupportedPackageManagers find].
    destruct (isPresent w "dpkg-query"); [reflexivity|].
    destruct (isPresent w "rpm"); reflexivity.
  - intros manager [<-|[<-|[]]]; reflexivity.
Qed.

Lemma detection_returns_first_present_manager_witness :
  strings.Contains noManagerFound "rpm" = true
  /\ fst (DetectPackageManager debian emptyState) = ("dpkg-query", None)
  /\ fst (DetectPackageManager rpmBehindBrokenWhich emptyState) = ("rpm", None)
  /\ fst (DetectPackageManager bare emptyState) = ("", Some noManagerFound).
Proof.
  split.
  - apply (detection_returns_first_present_manager bare emptyState emptyState
             emptyState).
    right; left; reflexivity.
  - split; [|split].
    + exact (proj1 (proj2 (proj2 (detection_returns_first_present_manager
               debian emptyState emptyState emptyState)))).
    + exact (proj1 (proj2 (proj2 (detection_returns_first_present_manager
               rpmBehindBrokenWhich emptyState emptyState emptyState)))).
    + exact (proj1 (proj2 (proj2 (detection_returns_first_present_manager
               bare emptyState emptyState emptyState)))).
Defined.

(** ** Parsing of the package-manager output *)

(** C7. For every output text, each line contributes on its own: a line
    that does not split into exactly two comma-delimited fields
    contributes no record and the lines after it are parsed as without
    it, a line with two fields contributes the record of these two
    fields; every record of the result has both fields from one such
    line; ["onlyonefield"] is a line of the first kind; and whatever the
    lines are, the assembler returns a [nil] error once the query output
    is there. *)
Theorem malformed_lines_are_skipped :
  forall (osInfo : OS),
    (forall managerQuery c,
        OsPkgInfoList (fst (parseManagerQuery osInfo managerQuery
                                              newPackageManifest c))
        = flat_map (recordsOfLine osInfo) (linesOf managerQuery))
    /\ (forall before bad after manifest c,
           List.length (strings.Split bad ",") <> 2%nat ->
           recordsOfLine osInfo bad = []
           /\ fst (parseLoop osInfo (before ++ bad :: after) manifest c)
              = fst (parseLoop osInfo (before ++ after) manifest c))
    /\ (forall before line after name version manifest c,
           strings.Split line "," = [name; version] ->
           OsPkgInfoList (fst (parseLoop osInfo (before ++ line :: after) manifest c))
           = (OsPkgInfoList (fst (parseLoop osInfo before manifest c))
              ++ {| Os := Name osInfo; OsVer := Version osInfo;
                    Pkg := name; PkgVer := version |}
              :: flat_map (recordsOfLine osInfo) after)%list)
    /\ (forall managerQuery c pkg,
           In pkg (OsPkgInfoList (fst (parseManagerQuery osInfo managerQuery
                                                         newPackageManifest c))) ->
           exists line,
             In line (linesOf managerQuery)
             /\ strings.Split line "," = [Pkg pkg; PkgVer pkg]
             /\ Os pkg = Name osInfo /\ OsVer pkg = Version osInfo)
    /\ List.length (strings.Split "onlyonefield" ",") = 1%nat
    /\ (forall feat w c manager managerQuery,
           osInfoOf w = (osInfo, None) ->
           managerOf w = (manager, None) ->
           managerQuerySwitch w manager = Queried managerQuery ->
           exists manifest,
             fst (GeneratePackageManifest feat w c) = Returns (manifest, None)).
Proof.
  intros osInfo. repeat split.
  - intros. now rewrite parseManagerQuery_fst.
  - unfold recordsOfLine.
    by_fields bad; cbn in *; congruence.
  - rewrite !parseLoop_records, !flat_map_app. cbn [flat_map].
    unfold recordsOfLine at 2.
    by_fields bad; cbn in *; congruence.
  - intros before line after name version manifest c Hsplit.
    rewrite !parseLoop_records. cbn [OsPkgInfoList].
    rewrite flat_map_app. cbn [flat_map]. unfold recordsOfLine at 2.
    rewrite Hsplit. now rewrite <- app_assoc.
  - intros managerQuery c pkg Hin.
    rewrite parseManagerQuery_fst in Hin. cbn [OsPkgInfoList] in Hin.
    apply in_flat_map in Hin as [line [Hline Hrec]].
    exists line. split; [exact Hline|].
    unfold recordsOfLine in Hrec.
    by_fields line; cbn in Hrec; try contradiction.
    destruct Hrec as [<-|[]]. repeat split.
  - intros feat w c manager managerQuery Hos Hmanager Hquery.
    rewrite GeneratePackageManifest_fst. unfold generated.
    rewrite Hos, Hmanager, Hquery. eexists. reflexivity.
Qed.

Lemma malformed_lines_are_skipped_witness :
  fst (parseLoop {| Name := "centos"; Version := "8" |}
         (["kernel,0:5.10.0-1"] ++ "onlyonefield" :: ["bash,0:5.1-2"])
         newPackageManifest emptyState)
  = fst (parseLoop {| Name := "centos"; Version := "8" |}
           (["kernel,0:5.10.0-1"] ++ ["bash,0:5.1-2"])
           newPackageManifest emptyState)
  /\ exists manifest,
      fst (GeneratePackageManifest "gen_pkg_manifest" centos emptyState)
      = Returns (manifest, None).
Proof.
  pose proof (malformed_lines_are_skipped {| Name := "centos"; Version := "8" |})
    as [_ [Hskip [_ [_ [_ Hgenerate]]]]].
  split.
  - apply Hskip. cbn. discriminate.
  - apply (Hgenerate "gen_pkg_manifest" centos emptyState "rpm"
             ("kernel,0:5.10.0-1" ++ LF ++ "onlyonefield" ++ LF
              ++ "bash,0:5.1-2" ++ LF)); reflexivity.
Defined.

(** ** Epoch removal *)

Lemma splitFrom_byte_cons sep a s :
  strings.splitFrom (String sep "") 0 (String a s)
  = if Ascii.eqb sep a then "" :: strings.splitFrom (String sep "") 0 s
    else match strings.splitFrom (String sep "") 0 s with
         | piece :: pieces => String a piece :: pieces
         | [] => [String a ""]
         end.
Proof.
  cbn [strings.splitFrom strings.HasPrefix length Nat.sub].
  now rewrite HasPrefix_empty, andb_true_r.
Qed.

Lemma splitFrom_byte_nonempty sep s :
  strings.splitFrom (String sep "") 0 s <> [].
Proof.
  destruct s as [|a s]; [discriminate|].
  rewrite splitFrom_byte_cons.
  destruct (Ascii.eqb sep a); [discriminate|].
  now destruct (strings.splitFrom (String sep "") 0 s).
Qed.

Lemma Join_cons_cons e e' rest sep :
  strings.Join (e :: e' :: rest) sep = e ++ sep ++ strings.Join (e' :: rest) sep.
Proof. reflexivity. Qed.

(** Splitting at a byte and joining with it gives the string back. *)
Lemma Join_Split_byte sep s :
  strings.Join (strings.Split s (String sep "")) (String sep "") = s.
Proof.
  unfold strings.Split.
  induction s as [|a s IH]; [reflexivity|].
  rewrite splitFrom_byte_cons.
  pose proof (splitFrom_byte_nonempty sep s) as Hne.
  destruct (Ascii.eqb_spec sep a) as [<-|Hneq];
    destruct (strings.splitFrom (String sep "") 0 s) as [|piece pieces];
    try contradiction.
  - rewrite Join_cons_cons, IH. reflexivity.
  - rewrite <- IH. destruct pieces; [reflexivity|].
    now rewrite !Join_cons_cons.
Qed.

Lemma splitFrom_colon_cons a s :
  strings.splitFrom ":" 0 (String a s)
  = if Ascii.eqb ":" a then "" :: strings.splitFrom ":" 0 s
    else match strings.splitFrom ":" 0 s with
         | piece :: pieces => String a piece :: pieces
         | [] => [String a ""]
         end.
Proof. apply splitFrom_byte_cons. Qed.

Lemma split_colon_length s :
  List.length (strings.Split s ":") = S (colons s).
Proof.
  unfold strings.Split.
  induction s as [|a s IH]; [reflexivity|].
  rewrite splitFrom_colon_cons. cbn [colons].
  destruct (Ascii.eqb ":" a).
  - cbn [List.length]. now rewrite IH.
  - destruct (strings.splitFrom ":" 0 s); [discriminate|exact IH].
Qed.

Lemma split_without_colon s :
  colons s = 0 -> strings.Split s ":" = [s].
Proof.
  unfold strings.Split.
  induction s as [|a s IH]; [reflexivity|].
  rewrite splitFrom_colon_cons. cbn [colons].
  destruct (Ascii.eqb ":" a); [discriminate|].
  intros H. now rewrite (IH H).
Qed.

Lemma split_one_colon s :
  colons s = 1 ->
  exists epoch, strings.Split s ":" = [epoch; afterFirstColon s].
Proof.
  unfold strings.Split.
  induction s as [|a s IH]; [discriminate|].
  rewrite splitFrom_colon_cons. cbn [colons afterFirstColon].
  destruct (Ascii.eqb ":" a).
  - intros H. injection H as H. exists "".
    pose proof (split_without_colon s H) as E.
    unfold strings.Split in E. now rewrite E.
  - intros H. destruct (IH H) as [epoch ->]. now exists (String a epoch).
Qed.

Lemma contains_colon s :
  strings.Contains s ":" = (0 <? colons s)%nat.
Proof.
  unfold strings.Contains.
  induction s as [|a s IH]; [reflexivity|].
  cbn [strings.Index strings.HasPrefix colons].
  rewrite HasPrefix_empty, andb_true_r.
  destruct (Ascii.eqb ":" a); [reflexivity|].
  destruct (strings.Index s ":" <? 0)%Z eqn:E.
  - rewrite <- IH. apply Z.ltb_lt in E.
    symmetry. apply Z.leb_gt. exact E.
  - rewrite <- IH. apply Z.ltb_ge in E.
    transitivity true; [apply Z.leb_le; lia|symmetry; now apply Z.leb_le].
Qed.

Lemma colons_app s t : colons (s ++ t) = colons s + colons t.
Proof.
  induction s as [|a s IH]; [reflexivity|].
  cbn [append colons]. destruct (Ascii.eqb ":" a); now rewrite IH.
Qed.

Lemma afterFirstColon_app epoch version :
  colons epoch = 0 -> afterFirstColon (epoch ++ ":" ++ version) = version.
Proof.
  induction epoch as [|a epoch IH]; [reflexivity|].
  cbn [append colons afterFirstColon].
  destruct (Ascii.eqb ":" a); [discriminate|exact IH].
Qed.

(** The epoch removal by the number of colons. *)
Lemma removeEpoch_by_colons pkgVer :
  removeEpochFromPkgVersion pkgVer
  = if (colons pkgVer =? 1)%nat then afterFirstColon pkgVer else pkgVer.
Proof.
  unfold removeEpochFromPkgVersion. rewrite contains_colon.
  destruct (Nat.eqb_spec (colons pkgVer) 1) as [H1|H1].
  - rewrite H1. cbn [Nat.ltb Nat.leb].
    now destruct (split_one_colon pkgVer H1) as [epoch ->].
  - destruct (0 <? colons pkgVer)%nat; [|reflexivity].
    pose proof (split_colon_length pkgVer) as Hlen.
    destruct (strings.Split pkgVer ":") as [|x [|y [|z l]]]; try reflexivity.
    cbn in Hlen. congruence.
Qed.

(** On a version with at most one colon, which is what the rpm query
    format [epoch:version-release] prints, the epoch removal is the
    stripping of the text up to the first colon. *)
Lemma removeEpoch_at_most_one_colon pkgVer :
  colons pkgVer <= 1 ->
  removeEpochFromPkgVersion pkgVer = stripEpochPrefix pkgVer.
Proof.
  intros H. rewrite removeEpoch_by_colons. unfold stripEpochPrefix.
  destruct (colons pkgVer) as [|[|n]]; [reflexivity|reflexivity|lia].
Qed.

(** C3, as stated, fails: a version with two colons keeps its text
    before the first colon. *)
Lemma epoch_removal_keeps_prefix_of_two_colons :
  removeEpochFromPkgVersion "1:2:3" = "1:2:3"
  /\ stripEpochPrefix "1:2:3" = "2:3"
  /\ ~ (forall pkgVer,
          removeEpochFromPkgVersion pkgVer = stripEpochPrefix pkgVer).
Proof.
  split; [reflexivity|]. split; [reflexivity|].
  intros H. specialize (H "1:2:3"). discriminate H.
Qed.

(** C3, amended.  The epoch removal strips everything up to and
    including the colon from a version string that holds exactly one
    colon, and leaves every other string unchanged: one without a colon,
    and one with two colons or more. *)
Theorem epoch_removed_when_exactly_one_colon :
  (forall epoch version,
      colons epoch = 0 -> colons version = 0 ->
      removeEpochFromPkgVersion (epoch ++ ":" ++ version) = version)
  /\ (forall pkgVer,
         colons pkgVer = 1 ->
         removeEpochFromPkgVersion pkgVer = stripEpochPrefix pkgVer)
  /\ (forall pkgVer,
         colons pkgVer = 0 -> removeEpochFromPkgVersion pkgVer = pkgVer)
  /\ (forall pkgVer,
         2 <= colons pkgVer -> removeEpochFromPkgVersion pkgVer = pkgVer).
Proof.
  split; [|split; [|split]].
  - intros epoch version Hepoch Hversion.
    rewrite removeEpoch_by_colons, !colons_app, Hepoch, Hversion.
    cbn. now apply afterFirstColon_app.
  - intros pkgVer H. rewrite removeEpoch_by_colons. unfold stripEpochPrefix.
    now rewrite H.
  - intros pkgVer H. rewrite removeEpoch_by_colons. now rewrite H.
  - intros pkgVer H. rewrite removeEpoch_by_colons.
    destruct (Nat.eqb_spec (colons pkgVer) 1); [lia|reflexivity].
Qed.

Lemma epoch_removed_when_exactly_one_colon_witness :
  removeEpochFromPkgVersion ("0" ++ ":" ++ "5.10.0-1") = "5.10.0-1"
  /\ removeEpochFromPkgVersion "0:5.10.0-1" = stripEpochPrefix "0:5.10.0-1"
  /\ removeEpochFromPkgVersion "5.10.0-1" = "5.10.0-1"
  /\ removeEpochFromPkgVersion "1:2:3" = "1:2:3".
Proof.
  destruct epoch_removed_when_exactly_one_colon as [H1 [H2 [H3 H4]]].
  split; [|split; [|split]].
  - apply H1; reflexivity.
  - apply H2; reflexivity.
  - apply H3; reflexivity.
  - apply H4. cbn. lia.
Defined.

(** ** Active kernel filter under rpm, by the colons of the version *)

(** C1, as stated, fails: with the epoch taken to be the text before the
    first colon, the kernel package of version [0:5.10:1] would be kept
    on a host whose active kernel is [5.10:1]; the filter compares the
    whole version, which holds two colons, and removes the record. *)
Lemma rpm_filter_is_not_by_first_colon :
  OsPkgInfoList
    (fst (removeInactivePackagesFromManifest colonKernel colonManifest "rpm"
            emptyState)) = []
  /\ filter
       (fun pkg =>
          negb ((Pkg pkg =? "kernel")
                && negb (strings.Contains "5.10:1"
                           (stripEpochPrefix (PkgVer pkg)))))
       (OsPkgInfoList colonManifest)
     = OsPkgInfoList colonManifest
  /\ ~ (forall (w : World) (manifest : PackageManifest) (c : cliState)
               (activeKernel : string),
          fst (detectActiveKernel w c) = (activeKernel, true) ->
          OsPkgInfoList
            (fst (removeInactivePackagesFromManifest w manifest "rpm" c))
          = filter
              (fun pkg =>
                 negb ((Pkg pkg =? "kernel")
                       && negb (strings.Contains activeKernel
                                  (stripEpochPrefix (PkgVer pkg)))))
              (OsPkgInfoList manifest)).
Proof.
  split; [reflexivity|]. split; [reflexivity|].
  intros H.
  specialize (H colonKernel colonManifest emptyState "5.10:1" eq_refl).
  discriminate H.
Qed.

(** C1, amended.  For every manifest and every active kernel string,
    the filter under the rpm manager returns the records of the manifest,
    in their order and unchanged, without exactly those whose package
    name is ["kernel"] and whose version is not a substring of the active
    kernel string, the version being taken without its epoch, that is
    without everything up to and including the colon, when it holds
    exactly one colon, and whole when it holds none or several. *)
Theorem rpm_filter_removes_exactly_inactive_kernels :
  forall (w : World) (manifest : PackageManifest) (c : cliState)
         (activeKernel : string),
    fst (detectActiveKernel w c) = (activeKernel, true) ->
    OsPkgInfoList (fst (removeInactivePackagesFromManifest w manifest "rpm" c))
    = filter
        (fun pkg =>
           negb ((Pkg pkg =? "kernel")
                 && negb (strings.Contains activeKernel
                            (if (colons (PkgVer pkg) =? 1)%nat
                             then afterFirstColon (PkgVer pkg)
                             else PkgVer pkg))))
        (OsPkgInfoList manifest).
Proof.
  intros w manifest c activeKernel Hdetect.
  rewrite (rpm_filter_as_coded w manifest c activeKernel Hdetect).
  apply filter_ext. intros pkg. now rewrite removeEpoch_by_colons.
Qed.

Lemma rpm_filter_removes_exactly_inactive_kernels_witness :
  fst (detectActiveKernel centos emptyState) = ("5.10.0-2.el8", true)
  /\ OsPkgInfoList
       (fst (removeInactivePackagesFromManifest centos sampleManifest "rpm" emptyState))
     = [ {| Os := "centos"; OsVer := "8"; Pkg := "bash"; PkgVer := "0:5.1-2" |} ].
Proof.
  split; [reflexivity|].
  rewrite (rpm_filter_removes_exactly_inactive_kernels
             centos sampleManifest emptyState "5.10.0-2.el8");
    reflexivity.
Defined.

(** ** The apk reconstruction *)

Lemma skipn_nth_error {A} (l : list A) :
  forall i a, nth_error l i = Some a -> skipn i l = a :: skipn (S i) l.
Proof.
  induction l as [|b l IH]; intros [|i] a H; try discriminate.
  - now injection H as <-.
  - cbn [skipn]. cbn [nth_error] in H. now rewrite (IH i a H).
Qed.

(** In bounds, the loop appends one line per position. *)
Lemma apkLoop_in_bounds apkInfoArray withVersion :
  forall i mq,
    i + List.length withVersion <= List.length apkInfoArray ->
    apkLoop apkInfoArray i withVersion mq
    = Returns (mq ++ map apkLine (combine (skipn i apkInfoArray) withVersion))%list.
Proof.
  induction withVersion as [|pkg rest IH]; intros i mq Hlen.
  - cbn [apkLoop]. rewrite combine_nil. cbn [map]. now rewrite app_nil_r.
  - cbn [apkLoop List.length] in *.
    destruct (nth_error apkInfoArray i) as [name|] eqn:Hname.
    + rewrite IH by lia. rewrite (skipn_nth_error _ _ _ Hname).
      cbn [combine map apkLine]. now rewrite <- app_assoc.
    + apply nth_error_None in Hname. lia.
Qed.

(** Past the end of the name list, the loop panics at the first position
    that has no name. *)
Lemma apkLoop_out_of_bounds apkInfoArray withVersion :
  forall i mq,
    i <= List.length apkInfoArray ->
    List.length apkInfoArray < i + List.length withVersion ->
    apkLoop apkInfoArray i withVersion mq
    = Panics (indexOutOfRange (List.length apkInfoArray)
                              (List.length apkInfoArray)).
Proof.
  induction withVersion as [|pkg rest IH]; intros i mq Hi Hlen.
  - cbn [List.length] in Hlen. lia.
  - cbn [apkLoop List.length] in *.
    destruct (nth_error apkInfoArray i) as [name|] eqn:Hname.
    + assert (i < List.length apkInfoArray)
        by (apply nth_error_Some; congruence).
      apply IH; lia.
    + apply nth_error_None in Hname.
      now replace i with (List.length apkInfoArray) by lia.
Qed.

Lemma Replace1_prefix name rest : strings.Replace1 (name ++ rest) name "" = rest.
Proof.
  assert (Hunfold : forall s old new,
             strings.Replace1 s old new
             = if strings.HasPrefix s old then new ++ strings.drop (length old) s
               else match s with
                    | EmptyString => EmptyString
                    | String a s' => String a (strings.Replace1 s' old new)
                    end) by (now intros [|a s] old new).
  now rewrite Hunfold, HasPrefix_app, drop_app.
Qed.

(** C9, as stated, fails: a hyphen at the end of the versioned entry is
    removed as well, and a bare name that occurs in the versioned entry
    of its position without being its prefix is removed from inside
    it. *)
Lemma apk_reconstruction_trims_trailing_hyphen :
  apkManagerQuery ("pkg" ++ LF) ("pkg-1.0-" ++ LF) = Returns "pkg,1.0"
  /\ map apkLineByPrefix (combine (apkLines ("pkg" ++ LF)) (apkLines ("pkg-1.0-" ++ LF)))
     = ["pkg,1.0-"]
  /\ apkManagerQuery ("ssl" ++ LF) ("openssl-1.1" ++ LF) = Returns "ssl,open-1.1"
  /\ map apkLineByPrefix (combine (apkLines ("ssl" ++ LF)) (apkLines ("openssl-1.1" ++ LF)))
     = ["ssl,openssl-1.1"]
  /\ ~ (forall apkInfo apkInfoWithVersion,
          List.length (apkLines apkInfo) = List.length (apkLines apkInfoWithVersion) ->
          apkManagerQuery apkInfo apkInfoWithVersion
          = Returns (strings.Join
                       (map apkLineByPrefix
                            (combine (apkLines apkInfo) (apkLines apkInfoWithVersion)))
                       LF)).
Proof.
  repeat (split; [reflexivity|]).
  intros H. specialize (H ("pkg" ++ LF) ("pkg-1.0-" ++ LF) eq_refl).
  discriminate H.
Qed.

(** C9, amended.  For two apk listings with equal line counts the
    enumeration returns, joined by line terminators, one line per
    position: the bare name, a comma, and the versioned entry of that
    position with the first occurrence of the bare name removed (its name
    prefix, when the entry starts with the name) and all leading and
    trailing hyphens trimmed. *)
Theorem apk_reconstruction_is_positional :
  forall (apkInfo apkInfoWithVersion : string),
    List.length (apkLines apkInfo) = List.length (apkLines apkInfoWithVersion) ->
    apkManagerQuery apkInfo apkInfoWithVersion
    = Returns (strings.Join
                 (map apkLine (combine (apkLines apkInfo)
                                       (apkLines apkInfoWithVersion)))
                 LF)
    /\ (forall i name pkg,
           nth_error (apkLines apkInfo) i = Some name ->
           nth_error (apkLines apkInfoWithVersion) i = Some pkg ->
           nth_error (map apkLine (combine (apkLines apkInfo)
                                           (apkLines apkInfoWithVersion))) i
           = Some (name ++ ","
                   ++ strings.Trim (strings.Replace1 pkg name "") "-"))
    /\ (forall name rest, strings.Replace1 (name ++ rest) name "" = rest).
Proof.
  intros apkInfo apkInfoWithVersion Hlen. split; [|split].
  - unfold apkManagerQuery. fold (apkLines apkInfo) (apkLines apkInfoWithVersion).
    rewrite apkLoop_in_bounds by (cbn [Nat.add]; lia).
    reflexivity.
  - intros i name pkg Hname Hpkg.
    rewrite nth_error_map.
    assert (Hpair : nth_error (combine (apkLines apkInfo)
                                       (apkLines apkInfoWithVersion)) i
                    = Some (name, pkg)).
    { revert Hname Hpkg. clear Hlen.
      generalize (apkLines apkInfo) (apkLines apkInfoWithVersion).
      induction i as [|i IH]; intros [|n ns] [|p ps]; cbn; try discriminate.
      - now intros [= <-] [= <-].
      - apply IH. }
    now rewrite Hpair.
  - apply Replace1_prefix.
Qed.

Lemma apk_reconstruction_is_positional_witness :
  apkManagerQuery ("musl" ++ LF ++ "busybox" ++ LF)
                  ("musl-1.2.2-r7" ++ LF ++ "busybox-1.34.1-r3" ++ LF)
  = Returns ("musl,1.2.2-r7" ++ LF ++ "busybox,1.34.1-r3").
Proof.
  exact (proj1 (apk_reconstruction_is_positional
                  ("musl" ++ LF ++ "busybox" ++ LF)
                  ("musl-1.2.2-r7" ++ LF ++ "busybox-1.34.1-r3" ++ LF)
                  eq_refl)).
Defined.

(** C10.  The loop reads [apkInfoArray[i]] at every position of the
    versioned listing without a bounds check.  When the versioned listing
    has at most as many lines as the listing of bare names, every read is
    in bounds and the enumeration returns; when it has more lines, the
    read at the first position past the bare names panics. *)
Theorem apk_index_in_bounds_iff_not_longer :
  forall (apkInfo apkInfoWithVersion : string),
    (List.length (apkLines apkInfoWithVersion) <= List.length (apkLines apkInfo) ->
     (forall i, i < List.length (apkLines apkInfoWithVersion) ->
                nth_error (apkLines apkInfo) i <> None)
     /\ exists managerQuery,
         apkManagerQuery apkInfo apkInfoWithVersion = Returns managerQuery)
    /\ (List.length (apkLines apkInfo) < List.length (apkLines apkInfoWithVersion) ->
        apkManagerQuery apkInfo apkInfoWithVersion
        = Panics (indexOutOfRange (List.length (apkLines apkInfo))
                                  (List.length (apkLines apkInfo)))).
Proof.
  intros apkInfo apkInfoWithVersion. split; intros Hlen.
  - split.
    + intros i Hi. apply nth_error_Some. lia.
    + unfold apkManagerQuery.
      fold (apkLines apkInfo) (apkLines apkInfoWithVersion).
      rewrite apkLoop_in_bounds by (cbn [Nat.add]; lia).
      eexists. reflexivity.
  - unfold apkManagerQuery.
    fold (apkLines apkInfo) (apkLines apkInfoWithVersion).
    rewrite apkLoop_out_of_bounds; [reflexivity|lia|cbn [Nat.add]; lia].
Qed.

Lemma apk_index_in_bounds_iff_not_longer_witness :
  (exists managerQuery,
      apkManagerQuery ("musl" ++ LF ++ "busybox" ++ LF) ("musl-1.2.2-r7" ++ LF)
      = Returns managerQuery)
  /\ apkManagerQuery ("musl" ++ LF)
                     ("musl-1.2.2-r7" ++ LF ++ "busybox-1.34.1-r3" ++ LF)
     = Panics "runtime error: index out of range [1] with length 1".
Proof.
  split.
  - apply (apk_index_in_bounds_iff_not_longer
             ("musl" ++ LF ++ "busybox" ++ LF) ("musl-1.2.2-r7" ++ LF)).
    cbn. lia.
  - apply (apk_index_in_bounds_iff_not_longer
             ("musl" ++ LF)
             ("musl-1.2.2-r7" ++ LF ++ "busybox-1.34.1-r3" ++ LF)).
    cbn. lia.
Defined.

(** ** OS release reader *)

Lemma scanTokens_all_lines pieces :
  Forall (fun line => tooLong line = false) pieces ->
  scanTokens pieces = map dropCR (dropFinalEmpty pieces).
Proof.
  induction 1 as [|line rest Hline Hrest IH]; [reflexivity|].
  destruct rest as [|next rest].
  - cbn [scanTokens dropFinalEmpty]. rewrite Hline.
    now destruct (line =? "").
  - change (scanTokens (line :: next :: rest))
      with (if tooLong line then [] else dropCR line :: scanTokens (next :: rest)).
    now rewrite Hline, IH.
Qed.

(** A text cannot match both patterns. *)
Lemma name_line_is_no_version_line text m :
  FindStringSubmatch rexNameFromID text = Some m ->
  FindStringSubmatch rexVersionID text = None.
Proof.
  unfold FindStringSubmatch. destruct text as [|a text]; [discriminate|].
  cbn [literal rexNameFromID rexVersionID strings.HasPrefix].
  destruct (Ascii.eqb_spec "I" a) as [<-|Hne]; [reflexivity|discriminate].
Qed.

Lemma scanLoop_lastValue texts :
  forall osInfo,
    scanLoop texts osInfo
    = {| Name := lastValue rexNameFromID texts (Name osInfo);
         Version := lastValue rexVersionID texts (Version osInfo) |}.
Proof.
  induction texts as [|text rest IH]; intros osInfo; [now destruct osInfo|].
  cbn [scanLoop lastValue].
  destruct (FindStringSubmatch rexNameFromID text) as [m|] eqn:Hname.
  - rewrite (name_line_is_no_version_line _ _ Hname). now rewrite IH.
  - destruct (FindStringSubmatch rexVersionID text) as [m|]; now rewrite IH.
Qed.

Lemma lastValue_app re before after :
  forall default,
    lastValue re (before ++ after) default
    = lastValue re after (lastValue re before default).
Proof.
  induction before as [|text rest IH]; intros default; [reflexivity|].
  cbn [app lastValue]. destruct (FindStringSubmatch re text); apply IH.
Qed.

Lemma lastValue_unmatched re texts :
  forall default,
    Forall (fun text => FindStringSubmatch re text = None) texts ->
    lastValue re texts default = default.
Proof.
  induction texts as [|text rest IH]; intros default H; [reflexivity|].
  inversion H as [|? ? Htext Hrest]; subst.
  cbn [lastValue]. rewrite Htext. now apply IH.
Qed.

Lemma find_literal re value :
  strings.Contains value LF = false ->
  FindStringSubmatch re (literal re ++ value)
  = Some [literal re ++ value; value].
Proof.
  intros Hvalue. unfold FindStringSubmatch.
  now rewrite HasPrefix_app, drop_app, Hvalue.
Qed.

(** C8, as stated, fails: a line of 65536 bytes matches neither pattern,
    and the identifier and version lines after it are not read, because
    the scan ends at a line that does not fit the scanner's buffer. *)
Lemma os_info_long_line_ends_scan :
  strings.Contains longLine LF = false
  /\ FindStringSubmatch rexNameFromID longLine = None
  /\ FindStringSubmatch rexVersionID longLine = None
  /\ fst (GetOSInfo
            (withRelease centos (unlines [longLine; "ID=ubuntu"; "VERSION_ID=22.04"]))
            emptyState)
     = ({| Name := ""; Version := "" |}, None)
  /\ fst (GetOSInfo
            (withRelease centos (unlines ["ID=ubuntu"; "VERSION_ID=22.04"]))
            emptyState)
     = ({| Name := "ubuntu"; Version := "22.04" |}, None)
  /\ ~ (forall before text after,
          strings.Contains text LF = false ->
          FindStringSubmatch rexNameFromID text = None ->
          FindStringSubmatch rexVersionID text = None ->
          fst (GetOSInfo (withRelease centos (unlines (before ++ text :: after)))
                         emptyState)
          = fst (GetOSInfo (withRelease centos (unlines (before ++ after)))
                           emptyState))
  /\ ~ (forall content,
          fst (GetOSInfo (withRelease centos content) emptyState)
          = ({| Name := lastValue rexNameFromID (textLines content) "";
                Version := lastValue rexVersionID (textLines content) "" |},
             None)).
Proof.
  assert (H1 : strings.Contains longLine LF = false) by (vm_compute; reflexivity).
  assert (H2 : FindStringSubmatch rexNameFromID longLine = None)
    by (vm_compute; reflexivity).
  assert (H3 : FindStringSubmatch rexVersionID longLine = None)
    by (vm_compute; reflexivity).
  assert (H4 : fst (GetOSInfo
                      (withRelease centos
                         (unlines [longLine; "ID=ubuntu"; "VERSION_ID=22.04"]))
                      emptyState)
               = ({| Name := ""; Version := "" |}, None))
    by (vm_compute; reflexivity).
  assert (H5 : fst (GetOSInfo
                      (withRelease centos (unlines ["ID=ubuntu"; "VERSION_ID=22.04"]))
                      emptyState)
               = ({| Name := "ubuntu"; Version := "22.04" |}, None))
    by (vm_compute; reflexivity).
  repeat (split; [assumption|]). split.
  - intros H.
    specialize (H [] longLine ["ID=ubuntu"; "VERSION_ID=22.04"] H1 H2 H3).
    cbn [app] in H. rewrite H4, H5 in H. discriminate H.
  - intros H.
    specialize (H (unlines [longLine; "ID=ubuntu"; "VERSION_ID=22.04"])).
    rewrite H4 in H.
    assert (Hname : Name (fst ({| Name := ""; Version := "" |}, @None string))
                    = "ubuntu").
    { rewrite H. vm_compute. reflexivity. }
    discriminate Hname.
Qed.

(** C8, amended.  For every readable release file in which every line
    is shorter than the scanner's buffer (65536 bytes), the reader
    returns no error, the name is the identifier value of the last
    [ID=] line and the version the value of the last [VERSION_ID=] line,
    double quotes trimmed from both ends; a line that matches neither
    pattern can be taken out without changing the result; and a field
    whose line is never found is the empty string. *)
Theorem os_info_from_release_lines :
  forall (w : World) (content : string) (c : cliState),
    os_release w = Ok content ->
    Forall (fun line => tooLong line = false) (strings.Split content LF) ->
    fst (GetOSInfo w c)
    = ({| Name := lastValue rexNameFromID (textLines content) "";
          Version := lastValue rexVersionID (textLines content) "" |}, None)
    /\ (forall value,
           strings.Contains value LF = false ->
           FindStringSubmatch rexNameFromID ("ID=" ++ value)
           = Some ["ID=" ++ value; value]
           /\ FindStringSubmatch rexVersionID ("VERSION_ID=" ++ value)
              = Some ["VERSION_ID=" ++ value; value])
    /\ (forall before text after,
           textLines content = (before ++ text :: after)%list ->
           FindStringSubmatch rexNameFromID text = None ->
           FindStringSubmatch rexVersionID text = None ->
           fst (GetOSInfo w c)
           = ({| Name := lastValue rexNameFromID (before ++ after) "";
                 Version := lastValue rexVersionID (before ++ after) "" |}, None))
    /\ (Forall (fun text => FindStringSubmatch rexNameFromID text = None)
               (textLines content) ->
        Name (fst (fst (GetOSInfo w c))) = "")
    /\ (Forall (fun text => FindStringSubmatch rexVersionID text = None)
               (textLines content) ->
        Version (fst (fst (GetOSInfo w c))) = "").
Proof.
  intros w content c Hfile Hlines.
  assert (Hos : fst (GetOSInfo w c)
                = ({| Name := lastValue rexNameFromID (textLines content) "";
                      Version := lastValue rexVersionID (textLines content) "" |},
                   None)).
  { rewrite GetOSInfo_fst. unfold osInfoOf, Scanner, textLines. rewrite Hfile.
    rewrite (scanTokens_all_lines _ Hlines). now rewrite scanLoop_lastValue. }
  split; [exact Hos|]. split; [|split; [|split]].
  - intros value Hvalue. split.
    + apply (find_literal rexNameFromID value Hvalue).
    + apply (find_literal rexVersionID value Hvalue).
  - intros before text after Hsplit Hname Hversion.
    rewrite Hos, Hsplit, !lastValue_app. cbn [lastValue].
    now rewrite Hname, Hversion.
  - intros Hnone. rewrite Hos. cbn [fst Name].
    now apply lastValue_unmatched.
  - intros Hnone. rewrite Hos. cbn [fst Version].
    now apply lastValue_unmatched.
Qed.

Lemma os_info_from_release_lines_witness :
  fst (GetOSInfo centos emptyState)
  = ({| Name := "centos"; Version := "8" |}, None).
Proof.
  refine (proj1 (os_info_from_release_lines centos
                   ("NAME=CentOS" ++ LF ++ "ID=" ++ quote ++ "centos" ++ quote
                    ++ LF ++ "VERSION_ID=" ++ quote ++ "8" ++ quote ++ LF)
                   emptyState eq_refl _)).
  repeat constructor.
Defined.

(** * Further properties of the pipeline *)

(** ** What the methods leave untouched *)

Lemma snd_bind {A B} (m : M A) (k : A -> M B) (c : cliState) :
  snd (bind m k c) = snd (k (fst (m c)) (snd (m c))).
Proof. unfold bind. destruct (m c); reflexivity. Qed.

Lemma keeps_ret {X A} (obs : cliState -> X) (a : A) : keeps obs (ret a).
Proof. intros c. reflexivity. Qed.

Lemma keeps_bind {X A B} (obs : cliState -> X) (m : M A) (k : A -> M B) :
  keeps obs m -> (forall a, keeps obs (k a)) -> keeps obs (bind m k).
Proof.
  intros Hm Hk c. rewrite snd_bind. now rewrite Hk, Hm.
Qed.

Create HintDb keeps.
#[local] Hint Resolve keeps_ret keeps_bind : keeps.

(** The methods that only log keep whatever the log does not touch. *)
Section LogOnly.

Context {X : Type} (obs : cliState -> X).
Hypothesis obs_logw : forall l msg, keeps obs (logw l msg).

Lemma keeps_Debugw msg : keeps obs (Debugw msg).
Proof. apply obs_logw. Qed.

Lemma keeps_Warnw msg : keeps obs (Warnw msg).
Proof. apply obs_logw. Qed.

#[local] Hint Resolve keeps_Debugw keeps_Warnw : keeps.

Lemma keeps_detectActiveKernel w : keeps obs (detectActiveKernel w).
Proof. unfold detectActiveKernel. destruct (uname_r w); auto with keeps. Qed.

Lemma keeps_GetOSInfo w : keeps obs (GetOSInfo w).
Proof.
  unfold GetOSInfo. apply keeps_bind; [auto with keeps|intros _].
  destruct (os_release w); auto with keeps.
Qed.

Lemma keeps_checkNative w manager :
  keeps obs (checkPackageManagerWithNativeCommand w manager).
Proof.
  unfold checkPackageManagerWithNativeCommand.
  destruct (runErr (command_v w manager)); auto with keeps.
Qed.

Lemma keeps_checkPackageManager w manager :
  keeps obs (checkPackageManager w manager).
Proof.
  unfold checkPackageManager. pose proof (keeps_checkNative w manager).
  destruct (runErr (which w manager)); auto with keeps.
Qed.

Lemma keeps_detectLoop w managers : keeps obs (detectLoop w managers).
Proof.
  induction managers as [|manager rest IH]; cbn [detectLoop]; [auto with keeps|].
  apply keeps_bind; [apply keeps_checkPackageManager|].
  intros [|]; auto with keeps.
Qed.

Lemma keeps_DetectPackageManager w : keeps obs (DetectPackageManager w).
Proof.
  unfold DetectPackageManager. apply keeps_bind; [auto with keeps|intros _].
  apply keeps_bind; [apply keeps_detectLoop|].
  intros [manager|]; auto with keeps.
Qed.

Lemma keeps_parseLoop osInfo pkgs :
  forall manifest, keeps obs (parseLoop osInfo pkgs manifest).
Proof.
  induction pkgs as [|pkg rest IH]; intros manifest; cbn [parseLoop];
    [auto with keeps|].
  by_fields pkg; auto with keeps.
Qed.

Lemma keeps_parseManagerQuery osInfo managerQuery manifest :
  keeps obs (parseManagerQuery osInfo managerQuery manifest).
Proof. apply keeps_parseLoop. Qed.

End LogOnly.

Lemma logw_keeps_Sent l msg : keeps Sent (logw l msg).
Proof. intros c. reflexivity. Qed.

Lemma logw_keeps_fields l msg : keeps fields (logw l msg).
Proof. intros c. reflexivity. Qed.

Lemma AddFeatureField_keeps_Sent key value : keeps Sent (AddFeatureField key value).
Proof. intros c. reflexivity. Qed.

Lemma inactiveKernelPkg_keeps_Sent manager activeKernel i pkg :
  keeps Sent (inactiveKernelPkg manager activeKernel i pkg).
Proof.
  pose proof logw_keeps_Sent. pose proof AddFeatureField_keeps_Sent.
  assert (keeps Sent (suppressKernel activeKernel i pkg))
    by (unfold suppressKernel, Warnw; auto with keeps).
  unfold inactiveKernelPkg.
  repeat match goal with |- context [if ?b then _ else _] => destruct b end;
    auto with keeps.
Qed.

Lemma filterLoop_keeps_Sent manager activeKernel pkgs :
  forall i newManifest,
    keeps Sent (filterLoop manager activeKernel i pkgs newManifest).
Proof.
  induction pkgs as [|pkg rest IH]; intros i newManifest; cbn [filterLoop];
    [auto with keeps|].
  apply keeps_bind; [apply inactiveKernelPkg_keeps_Sent|].
  intros [|]; apply IH.
Qed.

Lemma removeInactive_keeps_Sent w manifest manager :
  keeps Sent (removeInactivePackagesFromManifest w manifest manager).
Proof.
  pose proof logw_keeps_Sent. pose proof AddFeatureField_keeps_Sent.
  unfold removeInactivePackagesFromManifest.
  apply keeps_bind; [now apply keeps_detectActiveKernel|].
  intros [activeKernel detected].
  apply keeps_bind; [auto|intros _].
  destruct detected; cbn [negb]; [|auto with keeps].
  apply keeps_bind; [apply filterLoop_keeps_Sent|intros newManifest].
  apply keeps_bind; [|auto with keeps].
  destruct (negb _); unfold Debugw; auto with keeps.
Qed.

(** ** The assembler, case by case *)

Lemma managerOf_cases w :
  managerOf w
  = if isPresent w "dpkg-query" then ("dpkg-query", None)
    else if isPresent w "rpm" then ("rpm", None)
         else ("", Some noManagerFound).
Proof.
  unfold managerOf. cbn [SupportedPackageManagers find].
  destruct (isPresent w "dpkg-query"); [reflexivity|].
  now destruct (isPresent w "rpm").
Qed.

Lemma managerOf_supported w manager :
  managerOf w = (manager, None) -> manager = "dpkg-query" \/ manager = "rpm".
Proof.
  rewrite managerOf_cases.
  destruct (isPresent w "dpkg-query"); [intros [= <-]; now left|].
  destruct (isPresent w "rpm"); [intros [= <-]; now right|discriminate].
Qed.

Lemma generated_table w :
  generated w
  = match osInfoOf w with
    | (_, Some e) => Returns (newPackageManifest, Some e)
    | (osInfo, None) =>
        if isPresent w "dpkg-query"
        then enumerated w osInfo "dpkg-query" (dpkg_query_show w)
        else if isPresent w "rpm"
             then enumerated w osInfo "rpm" (rpm_qa w)
             else Returns (newPackageManifest, Some noManagerFound)
    end.
Proof.
  unfold generated. rewrite managerOf_cases.
  destruct (osInfoOf w) as [osInfo [e|]]; [reflexivity|].
  destruct (isPresent w "dpkg-query").
  - cbn. now destruct (dpkg_query_show w).
  - destruct (isPresent w "rpm"); [|reflexivity].
    cbn. now destruct (rpm_qa w).
Qed.

Lemma osInfoOf_error w osInfo e :
  osInfoOf w = (osInfo, Some e) -> e = unsupportedPlatform.
Proof.
  unfold osInfoOf. destruct (os_release w); [discriminate|now intros [= _ <-]].
Qed.

Lemma managerQuerySwitch_rpm w :
  managerQuerySwitch w "rpm"
  = match rpm_qa w with
    | Failed e => Bailed (Wrap e queryFailed) (Some e)
    | Ok out => Queried out
    end.
Proof. reflexivity. Qed.

Lemma managerQuerySwitch_dpkg w :
  managerQuerySwitch w "dpkg-query"
  = match dpkg_query_show w with
    | Failed e => Bailed (Wrap e queryFailed) (Some e)
    | Ok out => Queried out
    end.
Proof. reflexivity. Qed.

(** How [sends] composes: a method that keeps the count, followed by one
    that sends [n] whatever value the first can return. *)
Lemma sends_bind {A B} (m : M A) (k : A -> M B) (n : B -> nat) :
  keeps Sent m ->
  (forall a, (exists c, fst (m c) = a) -> sends (k a) n) ->
  sends (bind m k) n.
Proof.
  intros Hm Hk c. rewrite snd_bind, fst_bind.
  rewrite (Hk (fst (m c)) (ex_intro _ c eq_refl) (snd (m c))).
  now rewrite Hm.
Qed.

Lemma sends_deferred {A} (err : error) (a : A) (n : A -> nat) :
  n a = match err with None => 1 | Some _ => 0 end ->
  sends (deferred err ;; ret a) n.
Proof. intros Hn c. destruct err; cbn; now rewrite Hn. Qed.

(** The events sent over one call of the assembler. *)
Lemma GeneratePackageManifest_sends feat w :
  sends (GeneratePackageManifest feat w) sentFor.
Proof.
  pose proof logw_keeps_Sent as Hlog.
  pose proof AddFeatureField_keeps_Sent as Hadd.
  pose proof (keeps_Debugw Sent Hlog) as Hdebug.
  assert (Hfeat : keeps Sent (setFeature feat)) by (intros ?; reflexivity).
  assert (Htail : forall osInfo manager managerQuery,
             sends (Debugw "package-manager query" ;;
                    manifest <- parseManagerQuery osInfo managerQuery
                                  newPackageManifest ;;
                    AddFeatureField "total_manifest_pkgs"
                      (FInt (Z.of_nat (List.length (OsPkgInfoList manifest)))) ;;
                    Debugw "package-manifest" ;;
                    filtered <- removeInactivePackagesFromManifest w manifest
                                  manager ;;
                    deferred None ;;
                    ret (Returns (filtered, None))) sentFor).
  { intros osInfo manager managerQuery.
    apply sends_bind; [apply Hdebug|intros _ _].
    apply sends_bind; [now apply keeps_parseManagerQuery|intros manifest _].
    apply sends_bind; [apply Hadd|intros _ _].
    apply sends_bind; [apply Hdebug|intros _ _].
    apply sends_bind; [apply removeInactive_keeps_Sent|intros filtered _].
    now apply sends_deferred. }
  unfold GeneratePackageManifest.
  apply sends_bind; [exact Hfeat|intros _ _].
  apply sends_bind; [now apply keeps_GetOSInfo|].
  intros [osInfo [e|]] _; [now apply sends_deferred|].
  apply sends_bind; [apply Hadd|intros _ _].
  apply sends_bind; [apply Hadd|intros _ _].
  apply sends_bind; [now apply keeps_DetectPackageManager|].
  intros [manager [e|]] [c Hmanager]; [now apply sends_deferred|].
  rewrite DetectPackageManager_fst in Hmanager.
  apply sends_bind; [apply Hadd|intros _ _].
  destruct (managerOf_supported w manager Hmanager) as [-> | ->].
  - rewrite managerQuerySwitch_dpkg.
    destruct (dpkg_query_show w) as [managerQuery|e];
      [apply Htail|now apply sends_deferred].
  - rewrite managerQuerySwitch_rpm.
    destruct (rpm_qa w) as [managerQuery|e];
      [apply Htail|now apply sends_deferred].
Qed.

(** X1. The assembler never panics.  Detection yields dpkg-query or rpm
    and nothing else, so the yum, apk and default cases of the
    enumerator, the unchecked indexing of the apk case among them, are
    never reached from the assembler: on every host it returns. *)
Theorem assembler_never_panics :
  forall (feat : string) (w : World) (c : cliState),
    (forall manager c',
        fst (DetectPackageManager w c') = (manager, None) ->
        manager = "dpkg-query" \/ manager = "rpm")
    /\ exists manifest err,
        fst (GeneratePackageManifest feat w c) = Returns (manifest, err).
Proof.
  intros feat w c. split.
  - intros manager c'. rewrite DetectPackageManager_fst.
    apply managerOf_supported.
  - rewrite GeneratePackageManifest_fst, generated_table.
    destruct (osInfoOf w) as [osInfo [e|]]; [now eexists; eexists|].
    destruct (isPresent w "dpkg-query");
      [destruct (dpkg_query_show w); now eexists; eexists|].
    destruct (isPresent w "rpm"); [|now eexists; eexists].
    destruct (rpm_qa w); now eexists; eexists.
Qed.

Lemma assembler_never_panics_witness :
  "rpm" = "dpkg-query" \/ "rpm" = "rpm".
Proof.
  apply (proj1 (assembler_never_panics "gen_pkg_manifest" centos emptyState)
               "rpm" emptyState).
  reflexivity.
Defined.

(** X2. When the assembler returns an error, the manifest it returns
    with it is empty, and the error is one of three: the unsupported
    platform error of an unreadable release file, the error that no
    supported manager was found, or the failure of the query of dpkg or
    of rpm, wrapped. *)
Theorem assembler_errors :
  forall (feat : string) (w : World) (c : cliState)
         (manifest : PackageManifest) (e : string),
    fst (GeneratePackageManifest feat w c) = Returns (manifest, Some e) ->
    manifest = newPackageManifest
    /\ ((exists reason, os_release w = Failed reason /\ e = unsupportedPlatform)
        \/ e = noManagerFound
        \/ (exists reason,
               dpkg_query_show w = Failed reason /\ e = queryError reason)
        \/ (exists reason, rpm_qa w = Failed reason /\ e = queryError reason)).
Proof.
  intros feat w c manifest e.
  rewrite GeneratePackageManifest_fst, generated_table. unfold osInfoOf.
  destruct (os_release w) as [content|reason].
  - destruct (isPresent w "dpkg-query").
    + destruct (dpkg_query_show w) as [q|reason]; cbn [enumerated];
        [discriminate|].
      intros [= <- <-]. split; [reflexivity|].
      right; right; left. now exists reason.
    + destruct (isPresent w "rpm").
      * destruct (rpm_qa w) as [q|reason]; cbn [enumerated]; [discriminate|].
        intros [= <- <-]. split; [reflexivity|].
        right; right; right. now exists reason.
      * intros [= <- <-]. split; [reflexivity|]. now right; left.
  - intros [= <- <-]. split; [reflexivity|]. left. now exists reason.
Qed.

Lemma assembler_errors_witness :
  newPackageManifest = newPackageManifest
  /\ ((exists reason, os_release bare = Failed reason
                      /\ noManagerFound = unsupportedPlatform)
      \/ noManagerFound = noManagerFound
      \/ (exists reason, dpkg_query_show bare = Failed reason
                         /\ noManagerFound = queryError reason)
      \/ (exists reason, rpm_qa bare = Failed reason
                         /\ noManagerFound = queryError reason)).
Proof.
  apply (assembler_errors "gen_pkg_manifest" bare emptyState).
  reflexivity.
Defined.

(** X3. The telemetry event is sent exactly once by a call of the
    assembler that returns no error, and not at all by a call that
    returns one. *)
Theorem event_sent_once_on_success :
  forall (feat : string) (w : World) (c : cliState),
    Sent (snd (GeneratePackageManifest feat w c))
    = match fst (GeneratePackageManifest feat w c) with
      | Returns (_, None) => S (Sent c)
      | _ => Sent c
      end.
Proof.
  intros feat w c. rewrite (GeneratePackageManifest_sends feat w c).
  destruct (fst (GeneratePackageManifest feat w c)) as [[manifest [e|]]|msg];
    reflexivity.
Qed.

(** X4. There is no fallback from one manager to the other: when the
    release file is readable, the presence check of dpkg-query succeeds
    and the query of dpkg fails, the assembler returns that failure, with
    an empty manifest, whatever rpm would answer. *)
Theorem no_fallback_to_rpm :
  forall (feat : string) (w : World) (c c' : cliState)
         (content reason : string),
    os_release w = Ok content ->
    fst (checkPackageManager w "dpkg-query" c') = true ->
    dpkg_query_show w = Failed reason ->
    fst (GeneratePackageManifest feat w c)
    = Returns (newPackageManifest, Some (queryError reason)).
Proof.
  intros feat w c c' content reason Hfile Hpresent Hquery.
  rewrite checkPackageManager_fst in Hpresent.
  rewrite GeneratePackageManifest_fst, generated_table. unfold osInfoOf.
  now rewrite Hfile, Hpresent, Hquery.
Qed.

Lemma no_fallback_to_rpm_witness :
  fst (GeneratePackageManifest "gen_pkg_manifest" debianBrokenDpkg emptyState)
  = Returns (newPackageManifest,
             Some "unable to query packages from package manager: exit status 2").
Proof.
  apply (no_fallback_to_rpm "gen_pkg_manifest" debianBrokenDpkg emptyState
           emptyState
           ("ID=debian" ++ LF ++ "VERSION_ID=" ++ quote ++ "11" ++ quote ++ LF)
           "exit status 2"); reflexivity.
Defined.

(** ** What the kernel filter writes *)

Lemma written_nothing c : written c [] [] = c.
Proof.
  destruct c as [[feature data] log sent]. unfold written, fields.
  cbn. now rewrite !app_nil_r.
Qed.

Lemma written_written c fields1 entries1 fields2 entries2 :
  written (written c fields1 entries1) fields2 entries2
  = written c (fields1 ++ fields2) (entries1 ++ entries2).
Proof. unfold written, fields. cbn. now rewrite <- !app_assoc. Qed.

Lemma logw_written l msg c : snd (logw l msg c) = written c [] [(l, msg)].
Proof.
  destruct c as [[feature data] log sent]. unfold logw, written, fields.
  cbn. now rewrite app_nil_r.
Qed.

Lemma AddFeatureField_written key value c :
  snd (AddFeatureField key value c) = written c [(key, value)] [].
Proof.
  destruct c as [[feature data] log sent].
  unfold AddFeatureField, written, fields. cbn. now rewrite app_nil_r.
Qed.

Lemma inactiveKernelPkg_written manager activeKernel i pkg c :
  snd (inactiveKernelPkg manager activeKernel i pkg c)
  = if dropped manager activeKernel pkg
    then written c [suppressedField i pkg] [inactiveKernelWarning]
    else c.
Proof.
  assert (Hsuppress : snd (suppressKernel activeKernel i pkg c)
                      = written c [suppressedField i pkg] [inactiveKernelWarning]).
  { unfold suppressKernel, Warnw. rewrite !snd_bind. cbn [ret snd].
    now rewrite AddFeatureField_written, logw_written, written_written. }
  unfold inactiveKernelPkg, dropped.
  destruct (manager =? "rpm").
  - destruct (_ && _); [exact Hsuppress|reflexivity].
  - destruct (manager =? "dpkg-query"); [|reflexivity].
    destruct (strings.Contains (Pkg pkg) "linux-image-"); [|reflexivity].
    destruct (negb _); [exact Hsuppress|reflexivity].
Qed.

Lemma filterLoop_written manager activeKernel pkgs :
  forall i newManifest c,
    snd (filterLoop manager activeKernel i pkgs newManifest c)
    = written c (suppressedFields manager activeKernel i pkgs)
        (repeat inactiveKernelWarning
           (List.length (suppressedFields manager activeKernel i pkgs))).
Proof.
  induction pkgs as [|pkg rest IH]; intros i newManifest c.
  - cbn. now rewrite written_nothing.
  - cbn [filterLoop suppressedFields].
    rewrite snd_bind, inactiveKernelPkg_dropped, inactiveKernelPkg_written.
    destruct (dropped manager activeKernel pkg).
    + now rewrite IH, written_written.
    + apply IH.
Qed.

Lemma suppressed_plus_kept manager activeKernel pkgs :
  forall i,
    List.length (suppressedFields manager activeKernel i pkgs)
    + List.length (filter (fun pkg => negb (dropped manager activeKernel pkg)) pkgs)
    = List.length pkgs.
Proof.
  induction pkgs as [|pkg rest IH]; intros i; [reflexivity|].
  cbn [suppressedFields filter].
  destruct (dropped manager activeKernel pkg); cbn [negb List.length];
    rewrite <- (IH (S i)); lia.
Qed.


(** The state the filter leaves. *)
Lemma removeInactive_written w manifest manager c :
  snd (removeInactivePackagesFromManifest w manifest manager c)
  = match uname_r w with
    | Failed _ => written c [("active_kernel", FStr "")] [kernelNotDetected]
    | Ok kernel =>
        let activeKernel := strings.TrimSuffix kernel LF in
        let suppressed :=
          suppressedFields manager activeKernel 0 (OsPkgInfoList manifest) in
        written c (("active_kernel", FStr activeKernel) :: suppressed)
          (repeat inactiveKernelWarning (List.length suppressed)
           ++ if (List.length suppressed =? 0)%nat then [] else [manifestModified])
    end.
Proof.
  unfold removeInactivePackagesFromManifest.
  rewrite snd_bind, detectActiveKernel_fst. unfold detectActiveKernel.
  destruct (uname_r w) as [kernel|e].
  - cbn [negb ret snd]. rewrite !snd_bind. cbn [ret snd].
    rewrite (manifest_eta (fst (filterLoop _ _ _ _ _ _))), filterLoop_filter.
    cbn [OsPkgInfoList newPackageManifest app].
    rewrite filterLoop_written, AddFeatureField_written, written_written.
    cbn [app].
    pose proof (suppressed_plus_kept manager (strings.TrimSuffix kernel LF)
                  (OsPkgInfoList manifest) 0) as Hsum.
    set (suppressed := suppressedFields _ _ _ _) in *.
    set (kept := filter _ _) in *.
    destruct (Nat.eqb_spec (List.length suppressed) 0) as [Hnone|Hsome].
    + replace (List.length (OsPkgInfoList manifest) =? List.length kept)%nat
        with true by (symmetry; apply Nat.eqb_eq; lia).
      cbn [negb ret snd]. now rewrite app_nil_r.
    + replace (List.length (OsPkgInfoList manifest) =? List.length kept)%nat
        with false by (symmetry; apply Nat.eqb_neq; lia).
      cbn [negb]. unfold Debugw. rewrite logw_written, written_written.
      now rewrite app_nil_r.
  - unfold Warnw. repeat (rewrite ?snd_bind; cbn [ret snd fst negb]).
    now rewrite AddFeatureField_written, logw_written, written_written.
Qed.

Lemma filter_all_kept {A} (keep : A -> bool) (l : list A) :
  List.length (filter keep l) = List.length l -> filter keep l = l.
Proof.
  induction l as [|a l IH]; [reflexivity|].
  cbn [filter]. pose proof (filter_length_le keep l) as Hle.
  destruct (keep a); cbn [List.length]; intros Hlen.
  - f_equal. apply IH. lia.
  - lia.
Qed.

Lemma filter_nothing_dropped {A} (keep : A -> bool) (l : list A) :
  (forall a, In a l -> keep a = true) -> filter keep l = l.
Proof.
  induction l as [|a l IH]; intros Hkeep; [reflexivity|].
  cbn [filter]. rewrite (Hkeep a (or_introl eq_refl)).
  f_equal. apply IH. intros b Hb. apply Hkeep. now right.
Qed.

(** X5. Under a manager other than rpm and dpkg-query the filter removes
    nothing: it returns the manifest it was given, whatever the active
    kernel is. *)
Theorem other_managers_are_not_filtered :
  forall (w : World) (manifest : PackageManifest) (manager : string)
         (c : cliState),
    manager <> "rpm" -> manager <> "dpkg-query" ->
    fst (removeInactivePackagesFromManifest w manifest manager c) = manifest.
Proof.
  intros w manifest manager c Hrpm Hdpkg.
  rewrite removeInactive_fst. destruct manifest as [pkgs].
  cbn [OsPkgInfoList]. f_equal. unfold filteredBy.
  destruct (uname_r w) as [kernel|e]; [|reflexivity].
  apply filter_nothing_dropped. intros pkg _. unfold dropped.
  apply String.eqb_neq in Hrpm, Hdpkg. now rewrite Hrpm, Hdpkg.
Qed.

Lemma other_managers_are_not_filtered_witness :
  fst (removeInactivePackagesFromManifest centos sampleManifest "apk" emptyState)
  = sampleManifest.
Proof.
  apply other_managers_are_not_filtered; discriminate.
Defined.

(** X6. The filter tells a modified manifest by comparing lengths, and
    the test is exact: among the log entries the filter adds, the entry
    "package-manifest modified" occurs exactly when the record list it
    returns differs from the one it was given. *)
Theorem modification_is_logged_exactly :
  forall (w : World) (manifest : PackageManifest) (manager : string)
         (c : cliState),
  exists entries,
    Log (snd (removeInactivePackagesFromManifest w manifest manager c))
    = (Log c ++ entries)%list
    /\ (In manifestModified entries
        <-> OsPkgInfoList
              (fst (removeInactivePackagesFromManifest w manifest manager c))
            <> OsPkgInfoList manifest).
Proof.
  intros w manifest manager c.
  rewrite removeInactive_written, removeInactive_records.
  destruct (uname_r w) as [kernel|e].
  - cbv zeta.
    pose proof (suppressed_plus_kept manager (strings.TrimSuffix kernel LF)
                  (OsPkgInfoList manifest) 0) as Hsum.
    set (suppressed := suppressedFields _ _ _ _) in *.
    set (kept := filter _ _) in *.
    eexists. split; [reflexivity|].
    rewrite in_app_iff. split.
    + intros [Hin|Hin].
      * apply repeat_spec in Hin. discriminate Hin.
      * destruct (Nat.eqb_spec (List.length suppressed) 0) as [Hnone|Hsome];
          [contradiction|].
        intros Heq. rewrite Heq in Hsum. lia.
    + intros Hneq. right.
      destruct (Nat.eqb_spec (List.length suppressed) 0) as [Hnone|Hsome];
        [|now left].
      exfalso. apply Hneq. apply filter_all_kept. fold kept. lia.
  - exists [kernelNotDetected]. split; [reflexivity|]. split.
    + intros [Hin|[]]. discriminate Hin.
    + intros Hneq. now contradiction Hneq.
Qed.



(** ** What the kernel filter keeps *)

Lemma kept_when_not_dropped w manifest manager c pkg :
  In pkg (OsPkgInfoList manifest) ->
  (forall activeKernel, dropped manager activeKernel pkg = false) ->
  In pkg (OsPkgInfoList
            (fst (removeInactivePackagesFromManifest w manifest manager c))).
Proof.
  intros Hin Hkeep. rewrite removeInactive_records.
  destruct (uname_r w) as [kernel|e]; [|exact Hin].
  apply filter_In. split; [exact Hin|]. now rewrite Hkeep.
Qed.

Lemma kept_when_active w manifest manager c activeKernel pkg :
  fst (detectActiveKernel w c) = (activeKernel, true) ->
  In pkg (OsPkgInfoList manifest) ->
  dropped manager activeKernel pkg = false ->
  In pkg (OsPkgInfoList
            (fst (removeInactivePackagesFromManifest w manifest manager c))).
Proof.
  intros Hdetect Hin Hkeep.
  rewrite removeInactive_records. rewrite detectActiveKernel_fst in Hdetect.
  destruct (uname_r w) as [kernel|e]; [|discriminate].
  injection Hdetect as <-.
  apply filter_In. split; [exact Hin|]. now rewrite Hkeep.
Qed.

(** X8. The package of the running kernel is never removed.  Under rpm a
    record whose version, with or without an epoch before a colon,
    occurs in the active kernel string is kept; under dpkg-query a
    record named ["linux-image-"] followed by a text that occurs in the
    active kernel string is kept. *)
Theorem active_kernel_package_is_kept :
  forall (w : World) (manifest : PackageManifest) (c : cliState)
         (activeKernel before version after : string) (pkg : OsPkgInfo),
    fst (detectActiveKernel w c) = (activeKernel, true) ->
    activeKernel = before ++ version ++ after ->
    In pkg (OsPkgInfoList manifest) ->
    (forall epoch,
        colons epoch = 0 -> colons version = 0 ->
        PkgVer pkg = epoch ++ ":" ++ version \/ PkgVer pkg = version ->
        In pkg (OsPkgInfoList
                  (fst (removeInactivePackagesFromManifest w manifest "rpm" c))))
    /\ (Pkg pkg = "linux-image-" ++ version ->
        In pkg (OsPkgInfoList
                  (fst (removeInactivePackagesFromManifest w manifest
                          "dpkg-query" c)))).
Proof.
  intros w manifest c activeKernel before version after pkg Hdetect Hkernel Hin.
  assert (Hoccurs : strings.Contains activeKernel version = true)
    by (apply Contains_iff; now exists before, after).
  split.
  - intros epoch Hepoch Hversion Hver.
    apply (kept_when_active _ _ _ _ activeKernel); try assumption.
    unfold dropped. cbn [String.eqb Ascii.eqb Bool.eqb].
    assert (Hstripped : removeEpochFromPkgVersion (PkgVer pkg) = version).
    { rewrite removeEpoch_by_colons. destruct Hver as [-> | ->].
      - rewrite !colons_app, Hepoch, Hversion. cbn.
        now apply afterFirstColon_app.
      - now rewrite Hversion. }
    rewrite Hstripped, Hoccurs. apply andb_false_r.
  - intros Hname.
    apply (kept_when_active _ _ _ _ activeKernel); try assumption.
    unfold dropped. cbn [String.eqb Ascii.eqb Bool.eqb].
    unfold strings.TrimPrefix.
    rewrite Hname, HasPrefix_app, drop_app, Hoccurs. apply andb_false_r.
Qed.

Lemma active_kernel_package_is_kept_witness :
  In (debianPkg "linux-image-5.10.0" "1.0")
     (OsPkgInfoList
        (fst (removeInactivePackagesFromManifest debian
                {| OsPkgInfoList := [ debianPkg "linux-image-4.19.0" "1.0";
                                      debianPkg "linux-image-5.10.0" "1.0" ] |}
                "dpkg-query" emptyState))).
Proof.
  apply (active_kernel_package_is_kept debian
           {| OsPkgInfoList := [ debianPkg "linux-image-4.19.0" "1.0";
                                 debianPkg "linux-image-5.10.0" "1.0" ] |}
           emptyState "5.10.0-generic" "" "5.10.0" "-generic"
           (debianPkg "linux-image-5.10.0" "1.0")).
  - reflexivity.
  - reflexivity.
  - right; left; reflexivity.
  - reflexivity.
Defined.

(** X9. A record that is no kernel package is never removed, on any
    host: under rpm every record whose name is not ["kernel"] is kept,
    and under dpkg-query every record whose name does not contain
    ["linux-image-"] is kept. *)
Theorem other_packages_are_kept :
  forall (w : World) (manifest : PackageManifest) (c : cliState)
         (pkg : OsPkgInfo),
    In pkg (OsPkgInfoList manifest) ->
    (Pkg pkg <> "kernel" ->
     In pkg (OsPkgInfoList
               (fst (removeInactivePackagesFromManifest w manifest "rpm" c))))
    /\ ((forall before after, Pkg pkg <> before ++ "linux-image-" ++ after) ->
        In pkg (OsPkgInfoList
                  (fst (removeInactivePackagesFromManifest w manifest
                          "dpkg-query" c)))).
Proof.
  intros w manifest c pkg Hin. split.
  - intros Hname. apply kept_when_not_dropped; [exact Hin|].
    intros activeKernel. unfold dropped. cbn [String.eqb Ascii.eqb Bool.eqb].
    apply String.eqb_neq in Hname. now rewrite Hname.
  - intros Hname. apply kept_when_not_dropped; [exact Hin|].
    intros activeKernel. unfold dropped. cbn [String.eqb Ascii.eqb Bool.eqb].
    destruct (strings.Contains (Pkg pkg) "linux-image-") eqn:Hcontains;
      [|reflexivity].
    apply Contains_iff in Hcontains as [before [after Heq]].
    now contradiction (Hname before after).
Qed.

Lemma other_packages_are_kept_witness :
  In {| Os := "centos"; OsVer := "8"; Pkg := "bash"; PkgVer := "0:5.1-2" |}
     (OsPkgInfoList
        (fst (removeInactivePackagesFromManifest centos sampleManifest "rpm"
                emptyState))).
Proof.
  apply (other_packages_are_kept centos sampleManifest emptyState
           {| Os := "centos"; OsVer := "8"; Pkg := "bash"; PkgVer := "0:5.1-2" |}).
  - right; left; reflexivity.
  - discriminate.
Defined.

(** ** Splitting at a byte *)

Lemma contains_byte b s :
  strings.Contains s (String b "") = (0 <? countByte b s)%nat.
Proof.
  unfold strings.Contains.
  induction s as [|a s IH]; [reflexivity|].
  cbn [strings.Index strings.HasPrefix countByte].
  rewrite HasPrefix_empty, andb_true_r.
  destruct (Ascii.eqb b a); [reflexivity|].
  destruct (strings.Index s (String b "") <? 0)%Z eqn:E.
  - rewrite <- IH. apply Z.ltb_lt in E. symmetry. now apply Z.leb_gt.
  - rewrite <- IH. apply Z.ltb_ge in E.
    transitivity true; [apply Z.leb_le; lia|symmetry; now apply Z.leb_le].
Qed.

Lemma no_byte b s :
  strings.Contains s (String b "") = false -> countByte b s = 0.
Proof.
  rewrite contains_byte. destruct (countByte b s); [reflexivity|discriminate].
Qed.

Lemma countByte_app b s t : countByte b (s ++ t) = countByte b s + countByte b t.
Proof.
  induction s as [|a s IH]; [reflexivity|].
  cbn [append countByte]. destruct (Ascii.eqb b a); now rewrite IH.
Qed.

Lemma split_byte_none b s :
  countByte b s = 0 -> strings.Split s (String b "") = [s].
Proof.
  unfold strings.Split.
  induction s as [|a s IH]; [reflexivity|].
  rewrite splitFrom_byte_cons. cbn [countByte].
  destruct (Ascii.eqb b a); [discriminate|].
  intros H. now rewrite (IH H).
Qed.

Lemma split_byte_app b s t :
  countByte b s = 0 ->
  strings.Split (s ++ String b t) (String b "")
  = s :: strings.Split t (String b "").
Proof.
  unfold strings.Split.
  induction s as [|a s IH]; cbn [append countByte].
  - intros _. rewrite splitFrom_byte_cons. now rewrite Ascii.eqb_refl.
  - rewrite splitFrom_byte_cons.
    destruct (Ascii.eqb b a); [discriminate|].
    intros H. now rewrite (IH H).
Qed.

Lemma split_join_byte b pieces :
  pieces <> [] ->
  Forall (fun piece => countByte b piece = 0) pieces ->
  strings.Split (strings.Join pieces (String b "")) (String b "") = pieces.
Proof.
  intros Hne Hpieces. induction Hpieces as [|piece rest Hpiece Hrest IH];
    [contradiction|].
  destruct rest as [|next rest].
  - cbn [strings.Join]. now apply split_byte_none.
  - rewrite Join_cons_cons. cbn [append].
    rewrite (split_byte_app b piece _ Hpiece).
    f_equal. apply IH. discriminate.
Qed.

Lemma append_associative (s t u : string) : (s ++ t) ++ u = s ++ (t ++ u).
Proof.
  induction s as [|a s IH]; [reflexivity|]. cbn [append]. now rewrite IH.
Qed.

Lemma unlines_join terminated :
  terminated <> [] -> unlines terminated = strings.Join terminated LF ++ LF.
Proof.
  induction terminated as [|line rest IH]; [contradiction|]. intros _.
  destruct rest as [|next rest]; [reflexivity|].
  change (unlines (line :: next :: rest))
    with (line ++ LF ++ unlines (next :: rest)).
  rewrite IH by discriminate. rewrite Join_cons_cons.
  now rewrite !append_associative.
Qed.

(** The lines the parser sees in an output of terminated lines. *)
Lemma linesOf_unlines terminated :
  terminated <> [] ->
  Forall (fun line => countByte "010" line = 0) terminated ->
  linesOf (unlines terminated) = terminated.
Proof.
  intros Hne Hlines. unfold linesOf.
  rewrite (unlines_join _ Hne), TrimSuffix_app_LF.
  now apply (split_join_byte "010").
Qed.

(** ** Accounting of the parser *)

Lemma parseLoop_written osInfo pkgs :
  forall manifest c,
    snd (parseLoop osInfo pkgs manifest c)
    = written c [] (repeat unableToParse (List.length (malformed pkgs))).
Proof.
  induction pkgs as [|pkg rest IH]; intros manifest c.
  - cbn. now rewrite written_nothing.
  - cbn [parseLoop]. unfold malformed. cbn [filter]. fold (malformed rest).
    by_fields pkg; cbv beta iota; cbn [List.length Nat.eqb negb];
      try (unfold Warnw; rewrite snd_bind, IH, logw_written, written_written;
           reflexivity).
    apply IH.
Qed.

Lemma records_plus_malformed osInfo pkgs :
  List.length (flat_map (recordsOfLine osInfo) pkgs) + List.length (malformed pkgs)
  = List.length pkgs.
Proof.
  induction pkgs as [|pkg rest IH]; [reflexivity|].
  cbn [flat_map]. unfold malformed. cbn [filter]. fold (malformed rest).
  rewrite length_app. unfold recordsOfLine at 1.
  by_fields pkg; cbn [List.length Nat.eqb negb]; lia.
Qed.

(** X10. The parser accounts for every line of the query output: a line
    gives one record or one warning in the log, never both and never
    neither, and the parser writes nothing else.  An output always has at
    least one line, so an empty output gives one warning. *)
Theorem every_line_is_a_record_or_a_warning :
  forall (osInfo : OS) (managerQuery : string) (c : cliState),
  exists warnings,
    Log (snd (parseManagerQuery osInfo managerQuery newPackageManifest c))
    = (Log c ++ warnings)%list
    /\ Forall (eq unableToParse) warnings
    /\ List.length
         (OsPkgInfoList
            (fst (parseManagerQuery osInfo managerQuery newPackageManifest c)))
       + List.length warnings
       = List.length (strings.Split (strings.TrimSuffix managerQuery LF) LF)
    /\ 1 <= List.length (strings.Split (strings.TrimSuffix managerQuery LF) LF)
    /\ Event (snd (parseManagerQuery osInfo managerQuery newPackageManifest c))
       = Event c.
Proof.
  intros osInfo managerQuery c.
  rewrite parseManagerQuery_fst. unfold parseManagerQuery.
  rewrite parseLoop_written. fold (linesOf managerQuery).
  exists (repeat unableToParse (List.length (malformed (linesOf managerQuery)))).
  split; [reflexivity|]. split; [|split; [|split]].
  - apply Forall_forall. intros entry Hin. symmetry. now apply repeat_spec in Hin.
  - cbn [OsPkgInfoList]. rewrite repeat_length. apply records_plus_malformed.
  - unfold linesOf, strings.Split, LF.
    pose proof (splitFrom_byte_nonempty "010" (strings.TrimSuffix managerQuery LF)).
    unfold LF in *.
    destruct (strings.splitFrom _ 0 _); [contradiction|cbn; lia].
  - destruct c as [[feature data] log sent]. unfold written, fields. cbn.
    now rewrite app_nil_r.
Qed.

(** ** From the printed lines back to the packages *)

Lemma plain_no_comma s : plain s -> countByte "," s = 0.
Proof. intros [H _]. now apply no_byte. Qed.

Lemma plain_no_LF s : plain s -> countByte "010" s = 0.
Proof. intros [_ H]. now apply no_byte. Qed.

Lemma recordsOfLine_queryLine osInfo pkg :
  plain (fst pkg) -> plain (snd pkg) ->
  recordsOfLine osInfo (queryLine pkg) = [recordOf osInfo pkg].
Proof.
  intros Hname Hversion. unfold recordsOfLine, queryLine.
  cbn [append].
  rewrite (split_byte_app "," (fst pkg) (snd pkg) (plain_no_comma _ Hname)).
  now rewrite (split_byte_none "," (snd pkg) (plain_no_comma _ Hversion)).
Qed.

Lemma queryLine_no_LF pkg :
  plain (fst pkg) -> plain (snd pkg) -> countByte "010" (queryLine pkg) = 0.
Proof.
  intros Hname Hversion. unfold queryLine.
  rewrite !countByte_app, (plain_no_LF _ Hname), (plain_no_LF _ Hversion).
  reflexivity.
Qed.

Lemma records_of_printed osInfo pkgs :
  Forall (fun pkg => plain (fst pkg) /\ plain (snd pkg)) pkgs ->
  flat_map (recordsOfLine osInfo) (linesOf (unlines (map queryLine pkgs)))
  = map (recordOf osInfo) pkgs.
Proof.
  intros Hplain. destruct pkgs as [|pkg rest]; [reflexivity|].
  rewrite linesOf_unlines.
  - induction Hplain as [|p ps [Hname Hversion] Hps IH]; [reflexivity|].
    cbn [map flat_map]. rewrite recordsOfLine_queryLine by assumption.
    cbn [app]. f_equal. exact IH.
  - discriminate.
  - apply Forall_map. eapply Forall_impl; [|exact Hplain].
    intros p [Hname Hversion]. now apply queryLine_no_LF.
Qed.

(** X11. Printing and parsing are inverse to each other.  When the
    package manager prints one terminated line [name,version] per
    package, and no name or version holds a comma or a line terminator,
    the parser returns exactly these packages, in the order printed, each
    with the name and version of the operating system. *)
Theorem parser_reads_back_printed_packages :
  forall (osInfo : OS) (pkgs : list (string * string)) (c : cliState),
    Forall (fun pkg => plain (fst pkg) /\ plain (snd pkg)) pkgs ->
    OsPkgInfoList
      (fst (parseManagerQuery osInfo (unlines (map queryLine pkgs))
              newPackageManifest c))
    = map (fun pkg => {| Os := Name osInfo; OsVer := Version osInfo;
                         Pkg := fst pkg; PkgVer := snd pkg |}) pkgs.
Proof.
  intros osInfo pkgs c Hplain.
  rewrite parseManagerQuery_fst. cbn [OsPkgInfoList].
  now apply records_of_printed.
Qed.

Lemma parser_reads_back_printed_packages_witness :
  OsPkgInfoList
    (fst (parseManagerQuery {| Name := "centos"; Version := "8" |}
            (unlines (map queryLine [("kernel", "0:5.10.0-1"); ("bash", "0:5.1-2")]))
            newPackageManifest emptyState))
  = OsPkgInfoList sampleManifest.
Proof.
  apply (parser_reads_back_printed_packages
           {| Name := "centos"; Version := "8" |}
           [("kernel", "0:5.10.0-1"); ("bash", "0:5.1-2")] emptyState).
  repeat constructor.
Defined.

(** ** The whole pipeline on an rpm host *)

(** X12. End to end on an rpm host.  When the release file is readable,
    dpkg-query is absent and rpm present, rpm prints one well-formed line
    per installed package and the kernel is detected, the assembler
    returns, without error, the installed packages in the order printed,
    stamped with the operating system, less the kernel packages whose
    version does not occur in the active kernel string, the version being
    taken without everything up to and including the colon when it holds
    exactly one colon, and whole when it holds none or several. *)
Theorem rpm_host_end_to_end :
  forall (feat : string) (w : World) (c c1 c2 : cliState)
         (content kernel : string) (pkgs : list (string * string)),
    os_release w = Ok content ->
    fst (checkPackageManager w "dpkg-query" c1) = false ->
    fst (checkPackageManager w "rpm" c2) = true ->
    rpm_qa w = Ok (unlines (map queryLine pkgs)) ->
    Forall (fun pkg => plain (fst pkg) /\ plain (snd pkg)) pkgs ->
    uname_r w = Ok kernel ->
    fst (GeneratePackageManifest feat w c)
    = Returns
        ({| OsPkgInfoList :=
              filter
                (fun pkg =>
                   negb ((Pkg pkg =? "kernel")
                         && negb (strings.Contains
                                    (strings.TrimSuffix kernel LF)
                                    (if (colons (PkgVer pkg) =? 1)%nat
                                     then afterFirstColon (PkgVer pkg)
                                     else PkgVer pkg))))
                (map (fun pkg =>
                        {| Os := Name (fst (fst (GetOSInfo w c)));
                           OsVer := Version (fst (fst (GetOSInfo w c)));
                           Pkg := fst pkg; PkgVer := snd pkg |}) pkgs) |},
         None).
Proof.
  intros feat w c c1 c2 content kernel pkgs
         Hfile Hdpkg Hrpm Hquery Hplain Hkernel.
  rewrite checkPackageManager_fst in Hdpkg, Hrpm.
  rewrite GeneratePackageManifest_fst, generated_table, !GetOSInfo_fst.
  unfold osInfoOf. rewrite Hfile, Hdpkg, Hrpm, Hquery.
  cbn [enumerated fst]. rewrite (records_of_printed _ _ Hplain).
  unfold filteredBy. rewrite Hkernel. do 3 f_equal.
  apply filter_ext. intros pkg. unfold dropped.
  cbn [String.eqb Ascii.eqb Bool.eqb]. now rewrite removeEpoch_by_colons.
Qed.

Lemma rpm_host_end_to_end_witness :
  fst (GeneratePackageManifest "gen_pkg_manifest" centosClean emptyState)
  = Returns
      ({| OsPkgInfoList :=
            [ {| Os := "centos"; OsVer := "8";
                 Pkg := "kernel"; PkgVer := "0:5.10.0-2.el8" |};
              {| Os := "centos"; OsVer := "8";
                 Pkg := "bash"; PkgVer := "0:5.1-2" |} ] |}, None).
Proof.
  rewrite (rpm_host_end_to_end "gen_pkg_manifest" centosClean emptyState
             emptyState emptyState
             ("NAME=CentOS" ++ LF ++ "ID=" ++ quote ++ "centos" ++ quote
              ++ LF ++ "VERSION_ID=" ++ quote ++ "8" ++ quote ++ LF)
             ("5.10.0-2.el8.x86_64" ++ LF) centosPackages);
    try reflexivity.
  repeat constructor.
Defined.

(** ** More on the epoch removal *)

Lemma afterFirstColon_colons s n :
  colons s = S n -> colons (afterFirstColon s) = n.
Proof.
  induction s as [|a s IH]; [discriminate|].
  cbn [colons afterFirstColon].
  destruct (Ascii.eqb ":" a); [now intros [= ->]|exact IH].
Qed.

Lemma afterFirstColon_suffix s n :
  colons s = S n -> exists epoch, s = epoch ++ ":" ++ afterFirstColon s.
Proof.
  induction s as [|a s IH]; [discriminate|].
  cbn [colons afterFirstColon].
  destruct (Ascii.eqb_spec ":" a) as [<-|Hne].
  - intros _. now exists "".
  - intros H. destruct (IH H) as [epoch Hs].
    exists (String a epoch). cbn [append]. f_equal. exact Hs.
Qed.

(** X13. The epoch removal returns a suffix of the version it is given,
    a suffix that never holds exactly one colon, and applying the removal
    to its own result changes nothing. *)
Theorem epoch_removal_is_idempotent :
  forall (pkgVer : string),
    (exists prefix, pkgVer = prefix ++ removeEpochFromPkgVersion pkgVer)
    /\ colons (removeEpochFromPkgVersion pkgVer) <> 1
    /\ removeEpochFromPkgVersion (removeEpochFromPkgVersion pkgVer)
       = removeEpochFromPkgVersion pkgVer.
Proof.
  intros pkgVer.
  assert (Hnot : colons (removeEpochFromPkgVersion pkgVer) <> 1).
  { rewrite removeEpoch_by_colons.
    destruct (Nat.eqb_spec (colons pkgVer) 1) as [Hone|Hnot]; [|exact Hnot].
    now rewrite (afterFirstColon_colons _ _ Hone). }
  split; [|split; [exact Hnot|]].
  - rewrite removeEpoch_by_colons.
    destruct (Nat.eqb_spec (colons pkgVer) 1) as [Hone|_].
    + destruct (afterFirstColon_suffix _ _ Hone) as [epoch Hs].
      exists (epoch ++ ":"). now rewrite append_associative.
    + now exists "".
  - rewrite (removeEpoch_by_colons (removeEpochFromPkgVersion pkgVer)).
    now destruct (Nat.eqb_spec (colons (removeEpochFromPkgVersion pkgVer)) 1).
Qed.

(** ** Trimming *)

Lemma lastByte_cons a b s : lastByte (String a (String b s)) = lastByte (String b s).
Proof.
  cbn [lastByte]. now destruct (lastByte s).
Qed.

Lemma lastByte_some a s : lastByte (String a s) <> None.
Proof.
  revert a. induction s as [|b s IH]; intros a; [discriminate|].
  rewrite lastByte_cons. apply IH.
Qed.

Lemma HasPrefix_byte b s :
  strings.HasPrefix s (String b "") = true <-> firstByte s = Some b.
Proof.
  destruct s as [|a s]; cbn [strings.HasPrefix firstByte]; [easy|].
  rewrite HasPrefix_empty, andb_true_r, Ascii.eqb_eq.
  split; [now intros ->|now intros [= ->]].
Qed.

Lemma drop_to_last s a :
  lastByte s = Some a -> strings.drop (length s - 1) s = String a "".
Proof.
  induction s as [|b s IH]; [discriminate|].
  destruct s as [|b' s].
  - cbn. now intros [= ->].
  - rewrite lastByte_cons. intros Hlast. specialize (IH Hlast).
    cbn [length Nat.sub strings.drop] in *.
    now rewrite Nat.sub_0_r in IH.
Qed.

Lemma HasSuffix_byte b s :
  strings.HasSuffix s (String b "") = true <-> lastByte s = Some b.
Proof.
  unfold strings.HasSuffix. destruct s as [|a s]; [easy|].
  destruct (lastByte (String a s)) as [last|] eqn:Hlast;
    [|now apply lastByte_some in Hlast].
  change (length (String b "")) with 1.
  rewrite (drop_to_last _ _ Hlast). cbn [length Nat.leb andb String.eqb].
  destruct (Ascii.eqb_spec last b) as [->|Hne]; [easy|].
  split; [discriminate|]. intros [= Heq]. now contradiction Hne.
Qed.

Lemma TrimLeft_first s cutset a :
  firstByte (strings.TrimLeft s cutset) = Some a ->
  strings.inCutset a cutset = false.
Proof.
  induction s as [|b s IH]; [discriminate|].
  cbn [strings.TrimLeft].
  destruct (strings.inCutset b cutset) eqn:Hb; [exact IH|].
  now intros [= <-].
Qed.

Lemma TrimLeft_last s cutset a :
  lastByte (strings.TrimLeft s cutset) = Some a -> lastByte s = Some a.
Proof.
  induction s as [|b s IH]; [discriminate|].
  cbn [strings.TrimLeft].
  destruct (strings.inCutset b cutset); [|easy].
  intros H. specialize (IH H). cbn [lastByte]. now rewrite IH.
Qed.

Lemma TrimRight_last s cutset a :
  lastByte (strings.TrimRight s cutset) = Some a ->
  strings.inCutset a cutset = false.
Proof.
  induction s as [|b s IH]; [discriminate|].
  cbn [strings.TrimRight].
  destruct (strings.TrimRight s cutset) as [|b' r].
  - destruct (strings.inCutset b cutset) eqn:Hb; [discriminate|].
    now intros [= <-].
  - rewrite lastByte_cons. exact IH.
Qed.

(** What [strings.Trim] returns neither starts nor ends with a byte of
    the cutset. *)
Lemma Trim_ends s cutset a :
  firstByte (strings.Trim s cutset) = Some a
  \/ lastByte (strings.Trim s cutset) = Some a ->
  strings.inCutset a cutset = false.
Proof.
  unfold strings.Trim. intros [Hfirst|Hlast].
  - now apply TrimLeft_first in Hfirst.
  - apply TrimLeft_last in Hlast. now apply TrimRight_last in Hlast.
Qed.

Lemma TrimLeft_fixed s cutset :
  (forall a, firstByte s = Some a -> strings.inCutset a cutset = false) ->
  strings.TrimLeft s cutset = s.
Proof.
  destruct s as [|b s]; [reflexivity|]. intros H.
  cbn [strings.TrimLeft]. now rewrite (H b eq_refl).
Qed.

Lemma TrimRight_fixed s cutset :
  (forall a, lastByte s = Some a -> strings.inCutset a cutset = false) ->
  strings.TrimRight s cutset = s.
Proof.
  induction s as [|b s IH]; [reflexivity|]. intros H.
  cbn [strings.TrimRight]. destruct s as [|b' s].
  - cbn [strings.TrimRight]. now rewrite (H b eq_refl).
  - rewrite IH; [reflexivity|].
    intros a Ha. apply H. now rewrite lastByte_cons.
Qed.

Lemma no_surrounding_byte b s :
  (forall a, firstByte s = Some a \/ lastByte s = Some a ->
             strings.inCutset a (String b "") = false) ->
  strings.HasPrefix s (String b "") = false
  /\ strings.HasSuffix s (String b "") = false.
Proof.
  intros H. split.
  - destruct (strings.HasPrefix s (String b "")) eqn:E; [|reflexivity].
    apply HasPrefix_byte in E. specialize (H b (or_introl E)).
    cbn [strings.inCutset] in H. now rewrite Ascii.eqb_refl in H.
  - destruct (strings.HasSuffix s (String b "")) eqn:E; [|reflexivity].
    apply HasSuffix_byte in E. specialize (H b (or_intror E)).
    cbn [strings.inCutset] in H. now rewrite Ascii.eqb_refl in H.
Qed.

(** ** Quotes around the release values *)

Lemma lastValue_trimmed re texts :
  forall default,
    lastValue re texts default = default
    \/ exists value, lastValue re texts default = strings.Trim value quote.
Proof.
  induction texts as [|text rest IH]; intros default; [now left|].
  cbn [lastValue]. destruct (FindStringSubmatch re text) as [m|]; [|apply IH].
  destruct (IH (strings.Trim (nth 1 m "") quote)) as [->|H]; [|now right].
  right. now eexists.
Qed.

Lemma lastValue_unquoted re texts :
  strings.HasPrefix (lastValue re texts "") quote = false
  /\ strings.HasSuffix (lastValue re texts "") quote = false.
Proof.
  destruct (lastValue_trimmed re texts "") as [->|[value ->]];
    [split; reflexivity|].
  apply (no_surrounding_byte "034"). intros a Ha.
  now apply Trim_ends in Ha.
Qed.

(** X14. On every host, whatever the release file holds, the name and
    the version that the release reader returns neither start nor end
    with a double quote. *)
Theorem os_info_has_no_surrounding_quotes :
  forall (w : World) (c : cliState),
    let osInfo := fst (fst (GetOSInfo w c)) in
    strings.HasPrefix (Name osInfo) quote = false
    /\ strings.HasSuffix (Name osInfo) quote = false
    /\ strings.HasPrefix (Version osInfo) quote = false
    /\ strings.HasSuffix (Version osInfo) quote = false.
Proof.
  intros w c. cbv zeta. rewrite GetOSInfo_fst. unfold osInfoOf.
  destruct (os_release w) as [content|e]; [|now repeat split].
  cbn [fst]. rewrite scanLoop_lastValue. cbn [Name Version].
  destruct (lastValue_unquoted rexNameFromID (Scanner content)).
  destruct (lastValue_unquoted rexVersionID (Scanner content)).
  now repeat split.
Qed.

(** ** More on the apk reconstruction *)

Lemma not_in_byte_cutset a b :
  a <> b -> strings.inCutset a (String b "") = false.
Proof.
  intros Hne. cbn [strings.inCutset]. apply Ascii.eqb_neq in Hne.
  now rewrite Hne.
Qed.

Lemma Trim_hyphen_version version :
  strings.HasPrefix version "-" = false ->
  strings.HasSuffix version "-" = false ->
  strings.Trim ("-" ++ version) "-" = version.
Proof.
  intros Hfirst Hlast. destruct version as [|a version]; [reflexivity|].
  unfold strings.Trim. cbn [append].
  rewrite TrimRight_fixed.
  - cbn [strings.TrimLeft strings.inCutset]. rewrite Ascii.eqb_refl. cbn [orb].
    destruct (Ascii.eqb_spec a "-") as [->|Hne]; [|reflexivity].
    cbn [strings.HasPrefix] in Hfirst.
    now rewrite Ascii.eqb_refl, HasPrefix_empty in Hfirst.
  - intros x Hx. rewrite lastByte_cons in Hx. apply not_in_byte_cutset.
    intros ->. apply HasSuffix_byte in Hx. congruence.
Qed.

Lemma apkLine_versionedEntry pkg :
  strings.HasPrefix (snd pkg) "-" = false ->
  strings.HasSuffix (snd pkg) "-" = false ->
  apkLine (fst pkg, versionedEntry pkg) = queryLine pkg.
Proof.
  intros Hfirst Hlast. unfold apkLine, versionedEntry, queryLine.
  now rewrite Replace1_prefix, Trim_hyphen_version.
Qed.

(** X15. The apk reconstruction reads back what apk prints.  When the
    two listings hold, line by line, the bare names and the entries
    [name-version] of the same packages, and no version starts or ends
    with a hyphen, the query output that the apk case builds is the lines
    [name,version] of these packages, in order, joined by line
    terminators. *)
Theorem apk_reads_back_aligned_listings :
  forall (apkInfo apkInfoWithVersion : string) (pkgs : list (string * string)),
    apkLines apkInfo = map fst pkgs ->
    apkLines apkInfoWithVersion = map versionedEntry pkgs ->
    Forall (fun pkg => strings.HasPrefix (snd pkg) "-" = false
                       /\ strings.HasSuffix (snd pkg) "-" = false) pkgs ->
    apkManagerQuery apkInfo apkInfoWithVersion
    = Returns (strings.Join (map (fun pkg => fst pkg ++ "," ++ snd pkg) pkgs) LF).
Proof.
  intros apkInfo apkInfoWithVersion pkgs Hnames Hentries Hversions.
  unfold apkManagerQuery. fold (apkLines apkInfo) (apkLines apkInfoWithVersion).
  rewrite Hnames, Hentries.
  rewrite apkLoop_in_bounds by (rewrite !length_map; cbn [Nat.add]; lia).
  cbn [skipn app]. do 2 f_equal. clear Hnames Hentries.
  induction Hversions as [|pkg rest [Hfirst Hlast] Hrest IH]; [reflexivity|].
  cbn [map combine]. rewrite IH. f_equal.
  now apply apkLine_versionedEntry.
Qed.

Lemma apk_reads_back_aligned_listings_witness :
  apkManagerQuery ("musl" ++ LF ++ "busybox" ++ LF)
                  ("musl-1.2.2-r7" ++ LF ++ "busybox-1.34.1-r3" ++ LF)
  = Returns ("musl,1.2.2-r7" ++ LF ++ "busybox,1.34.1-r3").
Proof.
  apply (apk_reads_back_aligned_listings
           ("musl" ++ LF ++ "busybox" ++ LF)
           ("musl-1.2.2-r7" ++ LF ++ "busybox-1.34.1-r3" ++ LF)
           [("musl", "1.2.2-r7"); ("busybox", "1.34.1-r3")]);
    [reflexivity|reflexivity|].
  repeat constructor.
Defined.

(** X16. When the listing of bare names is longer than the versioned
    listing, the surplus names are dropped without a trace: the apk case
    builds one line per versioned entry, from the names at the same
    positions, and every version it builds neither starts nor ends with
    a hyphen. *)
Theorem apk_surplus_names_are_dropped :
  forall (apkInfo apkInfoWithVersion : string),
    List.length (apkLines apkInfoWithVersion) <= List.length (apkLines apkInfo) ->
    apkManagerQuery apkInfo apkInfoWithVersion
    = Returns
        (strings.Join
           (map (fun entry =>
                   fst entry ++ ","
                   ++ strings.Trim (strings.Replace1 (snd entry) (fst entry) "") "-")
                (combine (firstn (List.length (apkLines apkInfoWithVersion))
                                 (apkLines apkInfo))
                         (apkLines apkInfoWithVersion)))
           LF)
    /\ forall name pkg,
        let version := strings.Trim (strings.Replace1 pkg name "") "-" in
        strings.HasPrefix version "-" = false
        /\ strings.HasSuffix version "-" = false.
Proof.
  intros apkInfo apkInfoWithVersion Hlen. split.
  - unfold apkManagerQuery.
    fold (apkLines apkInfo) (apkLines apkInfoWithVersion).
    rewrite apkLoop_in_bounds by (cbn [Nat.add]; lia).
    cbn [skipn app]. do 2 f_equal.
    rewrite combine_firstn_r.
    assert (Hmap : forall l, map apkLine l
                             = map (fun entry : string * string =>
                                      fst entry ++ ","
                                      ++ strings.Trim
                                           (strings.Replace1 (snd entry)
                                                             (fst entry) "") "-") l).
    { intros l. apply map_ext. now intros [name pkg]. }
    now rewrite Hmap.
  - intros name pkg. cbv zeta.
    apply (no_surrounding_byte "-"). intros a Ha. now apply Trim_ends in Ha.
Qed.

Lemma apk_surplus_names_are_dropped_witness :
  apkManagerQuery ("musl" ++ LF ++ "busybox" ++ LF) ("musl-1.2.2-r7" ++ LF)
  = Returns "musl,1.2.2-r7".
Proof.
  refine (proj1 (apk_surplus_names_are_dropped
                   ("musl" ++ LF ++ "busybox" ++ LF) ("musl-1.2.2-r7" ++ LF) _)).
  cbn. lia.
Defined.

(** ** Later release lines override earlier ones *)

Lemma split_pieces_no_byte b s :
  Forall (fun piece => countByte b piece = 0) (strings.Split s (String b "")).
Proof.
  unfold strings.Split.
  induction s as [|a s IH]; [now repeat constructor|].
  rewrite splitFrom_byte_cons.
  destruct (Ascii.eqb b a) eqn:Hba; [now constructor|].
  destruct (strings.splitFrom (String b "") 0 s) as [|piece pieces];
    [constructor; [cbn; now rewrite Hba|constructor]|].
  inversion IH as [|? ? Hpiece Hpieces]; subst.
  constructor; [|exact Hpieces]. cbn [countByte]. now rewrite Hba.
Qed.

Lemma countByte_take b n s :
  countByte b s = 0 -> countByte b (strings.take n s) = 0.
Proof.
  revert s. induction n as [|n IH]; intros [|a s]; try reflexivity.
  cbn [countByte strings.take].
  destruct (Ascii.eqb b a); [discriminate|apply IH].
Qed.

Lemma dropFinalEmpty_incl pieces piece :
  In piece (dropFinalEmpty pieces) -> In piece pieces.
Proof.
  induction pieces as [|p rest IH]; [easy|].
  destruct rest as [|q rest].
  - cbn [dropFinalEmpty]. now destruct (p =? "").
  - change (dropFinalEmpty (p :: q :: rest))
      with (p :: dropFinalEmpty (q :: rest)).
    intros [<-|Hin]; [now left|right; now apply IH].
Qed.

(** No text that the scanner hands over holds a line terminator. *)
Lemma textLines_no_LF content text :
  In text (textLines content) -> strings.Contains text LF = false.
Proof.
  unfold textLines. intros Hin.
  apply in_map_iff in Hin as [piece [<- Hpiece]].
  apply dropFinalEmpty_incl in Hpiece.
  pose proof (split_pieces_no_byte "010" content) as Hall.
  rewrite Forall_forall in Hall. specialize (Hall piece Hpiece).
  unfold LF. rewrite contains_byte.
  assert (Hcr : countByte "010" (dropCR piece) = 0).
  { unfold dropCR. destruct (strings.HasSuffix piece CR); [|exact Hall].
    now apply countByte_take. }
  now rewrite Hcr.
Qed.

Lemma lastValue_last re before value after :
  strings.Contains value LF = false ->
  Forall (fun text => FindStringSubmatch re text = None) after ->
  lastValue re (before ++ (literal re ++ value)%string :: after)%list ""
  = strings.Trim value quote.
Proof.
  intros Hvalue Hafter. rewrite lastValue_app. cbn [lastValue].
  rewrite (find_literal re value Hvalue). cbn [nth].
  now apply lastValue_unmatched.
Qed.

(** X17. A later line overrides an earlier one.  In a readable release
    file whose lines all fit the scanner, the name is the value of the
    last line that starts with [ID=], and the version the value of the
    last line that starts with [VERSION_ID=], each with the double quotes
    at its ends trimmed, whatever lines come before. *)
Theorem last_release_line_wins :
  forall (w : World) (content : string) (c : cliState)
         (before after : list string) (value : string),
    os_release w = Ok content ->
    Forall (fun line => tooLong line = false) (strings.Split content LF) ->
    (textLines content = (before ++ ("ID=" ++ value)%string :: after)%list ->
     Forall (fun text => strings.HasPrefix text "ID=" = false) after ->
     Name (fst (fst (GetOSInfo w c))) = strings.Trim value quote)
    /\ (textLines content = (before ++ ("VERSION_ID=" ++ value)%string :: after)%list ->
        Forall (fun text => strings.HasPrefix text "VERSION_ID=" = false) after ->
        Version (fst (fst (GetOSInfo w c))) = strings.Trim value quote).
Proof.
  intros w content c before after value Hfile Hlines.
  assert (Hos : fst (fst (GetOSInfo w c))
                = {| Name := lastValue rexNameFromID (textLines content) "";
                     Version := lastValue rexVersionID (textLines content) "" |}).
  { rewrite GetOSInfo_fst. unfold osInfoOf, Scanner, textLines. rewrite Hfile.
    rewrite (scanTokens_all_lines _ Hlines). cbn [fst].
    now rewrite scanLoop_lastValue. }
  assert (Hvalue : forall (re : Regexp),
             textLines content
             = (before ++ (literal re ++ value)%string :: after)%list ->
             strings.Contains value LF = false).
  { intros re Hsplit.
    assert (Hin : In (literal re ++ value) (textLines content))
      by (rewrite Hsplit; apply in_elt).
    apply textLines_no_LF in Hin. unfold LF in *.
    rewrite contains_byte in *. rewrite countByte_app in Hin.
    destruct (countByte "010" value); [reflexivity|].
    now rewrite Nat.add_succ_r in Hin. }
  assert (Hnone : forall (re : Regexp),
             Forall (fun text => strings.HasPrefix text (literal re) = false) after ->
             Forall (fun text => FindStringSubmatch re text = None) after).
  { intros re. apply Forall_impl. intros text Hprefix.
    unfold FindStringSubmatch. now rewrite Hprefix. }
  rewrite Hos. cbn [Name Version]. split; intros Hsplit Hafter; rewrite Hsplit.
  - apply (lastValue_last rexNameFromID);
      [now apply (Hvalue rexNameFromID)|now apply (Hnone rexNameFromID)].
  - apply (lastValue_last rexVersionID);
      [now apply (Hvalue rexVersionID)|now apply (Hnone rexVersionID)].
Qed.

Lemma last_release_line_wins_witness :
  Name (fst (fst (GetOSInfo
                    (withRelease centos
                       (unlines ["ID=rhel"; "VERSION_ID=8"; "ID=centos"; "NAME=x"]))
                    emptyState)))
  = strings.Trim "centos" quote.
Proof.
  refine (proj1 (last_release_line_wins
                   (withRelease centos
                      (unlines ["ID=rhel"; "VERSION_ID=8"; "ID=centos"; "NAME=x"]))
                   (unlines ["ID=rhel"; "VERSION_ID=8"; "ID=centos"; "NAME=x"])
                   emptyState ["ID=rhel"; "VERSION_ID=8"] ["NAME=x"] "centos"
                   eq_refl _) eq_refl _);
    repeat constructor.
Defined.

(** ** The fields of the event after a successful run *)

Lemma adds_bind {A B} (m : M A) (k : A -> M B) l1 l2 :
  adds m l1 ->
  (forall a, (exists c, fst (m c) = a) -> adds (k a) l2) ->
  adds (bind m k) (l1 ++ l2).
Proof.
  intros Hm Hk c. rewrite snd_bind.
  rewrite (Hk (fst (m c)) (ex_intro _ c eq_refl) (snd (m c))).
  now rewrite Hm, app_assoc.
Qed.

Lemma adds_bind_last {A B} (m : M A) (k : A -> M B) l :
  adds m l ->
  (forall a, (exists c, fst (m c) = a) -> adds (k a) []) ->
  adds (bind m k) l.
Proof.
  intros Hm Hk c. rewrite (adds_bind m k l [] Hm Hk c). now rewrite app_nil_r.
Qed.

Lemma adds_keeps {A} (m : M A) : keeps fields m -> adds m [].
Proof. intros Hm c. now rewrite Hm, app_nil_r. Qed.

Lemma adds_AddFeatureField key value : adds (AddFeatureField key value) [(key, value)].
Proof. intros c. reflexivity. Qed.

Lemma adds_removeInactive w manifest manager :
  adds (removeInactivePackagesFromManifest w manifest manager)
       (kernelFields w manager (OsPkgInfoList manifest)).
Proof.
  intros c. rewrite removeInactive_written. unfold kernelFields.
  now destruct (uname_r w).
Qed.

(** X18. The fields of the event after a successful run.  The assembler
    adds, in this order, the name and the version of the operating
    system, the detected manager, the number of parsed records as it is
    before the kernel filter removes any, and then the fields of the
    kernel filter. *)
Theorem event_fields_of_a_successful_run :
  forall (feat : string) (w : World) (c c1 c2 : cliState) (osInfo : OS)
         (manager managerQuery : string),
    fst (GetOSInfo w c1) = (osInfo, None) ->
    fst (DetectPackageManager w c2) = (manager, None) ->
    managerQuerySwitch w manager = Queried managerQuery ->
    let parsed :=
      fst (parseManagerQuery osInfo managerQuery newPackageManifest c) in
    exists filterFields,
      (forall c',
          fields (snd (removeInactivePackagesFromManifest w parsed manager c'))
          = (fields c' ++ filterFields)%list)
      /\ fields (snd (GeneratePackageManifest feat w c))
         = (fields c
            ++ [ ("os", FStr (Name osInfo));
                 ("os_ver", FStr (Version osInfo));
                 ("pkg_manager", FStr manager);
                 ("total_manifest_pkgs",
                  FInt (Z.of_nat (List.length (OsPkgInfoList parsed)))) ]
            ++ filterFields)%list.
Proof.
  intros feat w c c1 c2 osInfo manager managerQuery Hos Hmanager Hquery parsed.
  rewrite GetOSInfo_fst in Hos. rewrite DetectPackageManager_fst in Hmanager.
  exists (kernelFields w manager (OsPkgInfoList parsed)).
  split; [intros c'; apply adds_removeInactive|].
  pose proof logw_keeps_fields as Hlog.
  pose proof (keeps_Debugw fields Hlog) as Hdebug.
  assert (Hfeat : keeps fields (setFeature feat)) by (intros ?; reflexivity).
  assert (Hsend : keeps fields SendHoneyvent) by (intros ?; reflexivity).
  subst parsed. rewrite parseManagerQuery_fst.
  unfold GeneratePackageManifest.
  apply (adds_bind _ _ []); [now apply adds_keeps|intros _ _].
  apply (adds_bind _ _ []); [apply adds_keeps; now apply keeps_GetOSInfo|].
  intros a [c0 Ha]. rewrite GetOSInfo_fst, Hos in Ha. subst a. clear c0.
  cbv beta iota.
  apply (adds_bind _ _ [_]); [apply adds_AddFeatureField|intros _ _].
  apply (adds_bind _ _ [_]); [apply adds_AddFeatureField|intros _ _].
  apply (adds_bind _ _ []);
    [apply adds_keeps; now apply keeps_DetectPackageManager|].
  intros a [c0 Ha]. rewrite DetectPackageManager_fst, Hmanager in Ha. subst a.
  clear c0.
  cbv beta iota.
  apply (adds_bind _ _ [_]); [apply adds_AddFeatureField|intros _ _].
  rewrite Hquery.
  apply (adds_bind _ _ []); [now apply adds_keeps|intros _ _].
  apply (adds_bind _ _ []);
    [apply adds_keeps; now apply keeps_parseManagerQuery|].
  intros a [c0 Ha]. rewrite parseManagerQuery_fst in Ha. subst a.
  apply (adds_bind _ _ [_]); [apply adds_AddFeatureField|intros _ _].
  apply (adds_bind _ _ []); [now apply adds_keeps|intros _ _].
  apply adds_bind_last; [apply adds_removeInactive|intros filtered _].
  apply (adds_bind _ _ [] []); [now apply adds_keeps|intros _ _].
  apply adds_keeps. apply keeps_ret.
Qed.

Lemma event_fields_of_a_successful_run_witness :
  exists filterFields,
    (forall c',
        fields (snd (removeInactivePackagesFromManifest centos
                       (fst (parseManagerQuery
                               {| Name := "centos"; Version := "8" |}
                               ("kernel,0:5.10.0-1" ++ LF ++ "onlyonefield" ++ LF
                                ++ "bash,0:5.1-2" ++ LF)
                               newPackageManifest emptyState))
                       "rpm" c'))
        = (fields c' ++ filterFields)%list)
    /\ fields (snd (GeneratePackageManifest "gen_pkg_manifest" centos emptyState))
       = (fields emptyState
          ++ [ ("os", FStr "centos"); ("os_ver", FStr "8");
               ("pkg_manager", FStr "rpm");
               ("total_manifest_pkgs", FInt 2) ]
          ++ filterFields)%list.
Proof.
  apply (event_fields_of_a_successful_run "gen_pkg_manifest" centos emptyState
           emptyState emptyState {| Name := "centos"; Version := "8" |} "rpm"
           ("kernel,0:5.10.0-1" ++ LF ++ "onlyonefield" ++ LF
            ++ "bash,0:5.1-2" ++ LF));
    reflexivity.
Defined.

(** ** The presence check and its fallback *)

Lemma checkPackageManager_Log w manager c :
  Log (snd (checkPackageManager w manager c))
  = (Log c
     ++ match runErr (which w manager) with
        | NoError => []
        | ExitError => [checkFailed]
        | OtherError =>
            [checkFailed; whichFailed]
            ++ match runErr (command_v w manager) with
               | NoError => []
               | _ => [checkFailed]
               end
        end)%list.
Proof.
  unfold checkPackageManager, checkPackageManagerWithNativeCommand.
  destruct (runErr (which w manager)).
  - cbn. now rewrite app_nil_r.
  - reflexivity.
  - destruct (runErr (command_v w manager));
      unfold Debugw, Warnw, logw, bind, ret; cbn [snd Log app];
      now rewrite <- ?app_assoc.
Qed.

(** X19. The presence check and its fallback.  A manager is reported
    present exactly when [which] ran and left exit status 0, or [which]
    could not be run and [command -v] ran and left exit status 0; the
    verdict of [command -v] is not looked at when [which] ran, and the
    warning about [which] is logged exactly when the fallback is
    consulted. *)
Theorem presence_check_falls_back_only_without_which :
  forall (w : World) (manager : string) (c : cliState),
  exists entries,
    Log (snd (checkPackageManager w manager c)) = (Log c ++ entries)%list
    /\ (In whichFailed entries <-> runErr (which w manager) = OtherError)
    /\ (fst (checkPackageManager w manager c) = true
        <-> (runErr (which w manager) <> OtherError
             /\ ExitStatus (which w manager) = 0%Z)
            \/ (runErr (which w manager) = OtherError
                /\ runErr (command_v w manager) <> OtherError
                /\ ExitStatus (command_v w manager) = 0%Z)).
Proof.
  intros w manager c. eexists. split; [apply checkPackageManager_Log|].
  rewrite checkPackageManager_fst. unfold isPresent.
  destruct (runErr (which w manager)) eqn:Hwhich.
  - split.
    + split; [intros []|discriminate].
    + rewrite Z.eqb_eq. split.
      * intros H. left. split; [discriminate|exact H].
      * intros [[_ H]|[H _]]; [exact H|discriminate].
  - split.
    + split; [intros [H|[]]; discriminate H|discriminate].
    + rewrite Z.eqb_eq. split.
      * intros H. left. split; [discriminate|exact H].
      * intros [[_ H]|[H _]]; [exact H|discriminate].
  - split.
    + split; [reflexivity|]. intros _. right; left; reflexivity.
    + destruct (runErr (command_v w manager)) eqn:Hnative;
        rewrite ?Z.eqb_eq; split;
        try (intros H; right; repeat split; [discriminate|exact H]);
        try (intros [[H _]|[_ [_ H]]]; [now contradiction H|exact H]);
        try discriminate.
      intros [[H _]|[_ [H _]]]; now contradiction H.
Qed.

(** ** The filter works record by record *)

(** X20. Whether the filter keeps a record depends on that record, the
    manager and the host alone, not on the other records or on its
    position: filtering a manifest made of two parts gives the filtered
    first part followed by the filtered second part. *)
Theorem filter_distributes_over_parts :
  forall (w : World) (first second : list OsPkgInfo) (manager : string)
         (c : cliState),
    OsPkgInfoList
      (fst (removeInactivePackagesFromManifest w
              {| OsPkgInfoList := (first ++ second)%list |} manager c))
    = (OsPkgInfoList
         (fst (removeInactivePackagesFromManifest w
                 {| OsPkgInfoList := first |} manager c))
       ++ OsPkgInfoList
            (fst (removeInactivePackagesFromManifest w
                    {| OsPkgInfoList := second |} manager c)))%list.
Proof.
  intros w first second manager c. rewrite !removeInactive_records.
  cbn [OsPkgInfoList]. destruct (uname_r w); [apply filter_app|reflexivity].
Qed.
